(** * smfc: the GPU zone fan controller ([src/smfc/gpuzone.py])

    A shallow embedding of [GpuZone.__init__] and [GpuZone._get_nth_temp]
    together with the Python built-ins they call, and the properties of the
    temperature cache, of the sensor acquisition and of the validation of
    [gpu_device_ids=].

    Python [float] is IEEE 754 binary64: it is embedded as Rocq's primitive
    [float].  Python [str] is embedded as [string], one character per code
    point below 256.  Python [int] is [Z]. *)

From Stdlib Require Import ZArith Floats Ascii String Lia.
From stdpp Require Import base tactics option list strings pretty gmap.

Local Open Scope string_scope.
Local Open Scope Z_scope.

(** ** Python exceptions raised or propagated by the module *)

Inductive exn : Set :=
| ValueError
| IndexError
| KeyError
| FileNotFoundError
| OSError.

(** ** Built-ins on [str] *)

Module Py.

(** [str.isspace] for one character: the code points below 256 that Python
    classifies as whitespace (TAB, LF, VT, FF, CR, FS, GS, RS, US, SPACE,
    NEL and NBSP). *)
Definition isspace (c : ascii) : bool :=
  let n := Z.of_N (N_of_ascii c) in
  ((9 <=? n) && (n <=? 13)) || ((28 <=? n) && (n <=? 32))
  || (n =? 133) || (n =? 160).

Definition isdigit (c : ascii) : bool :=
  let n := Z.of_N (N_of_ascii c) in (48 <=? n) && (n <=? 57).

Definition digit_value (c : ascii) : Z := Z.of_N (N_of_ascii c) - 48.

Fixpoint lstrip (s : string) : string :=
  match s with
  | String c r => if isspace c then lstrip r else s
  | EmptyString => EmptyString
  end.

Fixpoint rstrip (s : string) : string :=
  match s with
  | String c r =>
      match rstrip r with
      | EmptyString => if isspace c then EmptyString else String c EmptyString
      | r' => String c r'
      end
  | EmptyString => EmptyString
  end.

(** [s.strip()] *)
Definition strip (s : string) : string := rstrip (lstrip s).

(** [re.sub(" +", " ", s)]: every maximal run of U+0020 becomes one space. *)
Fixpoint squeeze_spaces (s : string) : string :=
  match s with
  | String c r =>
      if Ascii.eqb c " " then
        match r with
        | String c' _ => if Ascii.eqb c' " " then squeeze_spaces r
                         else String c (squeeze_spaces r)
        | EmptyString => String c EmptyString
        end
      else String c (squeeze_spaces r)
  | EmptyString => EmptyString
  end.

(** [c in s] for a one-character [c]. *)
Fixpoint contains (c : ascii) (s : string) : bool :=
  match s with
  | String c' r => Ascii.eqb c' c || contains c r
  | EmptyString => false
  end.

(** [s.split(sep)] for a one-character separator: never the empty list,
    empty fields are kept. *)
Fixpoint split (sep : ascii) (s : string) : list string :=
  match s with
  | String c r =>
      if Ascii.eqb c sep then EmptyString :: split sep r
      else match split sep r with
           | h :: t => String c h :: t
           | [] => [String c EmptyString]
           end
  | EmptyString => [EmptyString]
  end.

(** Line boundaries of [str.splitlines] below code point 256, CR apart:
    LF, VT, FF, FS, GS, RS and NEL. *)
Definition is_linebreak (c : ascii) : bool :=
  let n := Z.of_N (N_of_ascii c) in
  (n =? 10) || (n =? 11) || (n =? 12) || (n =? 28) || (n =? 29) || (n =? 30)
  || (n =? 133).

Definition is_cr (c : ascii) : bool := Z.of_N (N_of_ascii c) =? 13.
Definition is_lf (c : ascii) : bool := Z.of_N (N_of_ascii c) =? 10.

(** [s.splitlines()]: CR LF counts as one boundary and a final boundary
    opens no empty last line. *)
Fixpoint splitlines (s : string) : list string :=
  match s with
  | String c r =>
      if is_cr c then
        match r with
        | String c' r' =>
            if is_lf c' then EmptyString :: splitlines r'
            else EmptyString :: splitlines r
        | EmptyString => [EmptyString]
        end
      else if is_linebreak c then EmptyString :: splitlines r
      else match splitlines r with
           | h :: t => String c h :: t
           | [] => [String c EmptyString]
           end
  | EmptyString => []
  end.

(** A run of decimal digits in which single underscores may separate two
    digits: [digits_from prev acc s] is the number read after the digits already
    accumulated in [acc]; [prev] tells whether the previous character was a
    digit. *)
Fixpoint digits_from (prev : bool) (acc : Z) (s : string) : option Z :=
  match s with
  | String c r =>
      if isdigit c then digits_from true (10 * acc + digit_value c) r
      else if Ascii.eqb c "_" then
        match r with
        | String c' _ =>
            if prev && isdigit c' then digits_from false acc r else None
        | EmptyString => None
        end
      else None
  | EmptyString => if prev then Some acc else None
  end.

(** [int(s)] in base 10: surrounding whitespace, one optional sign, at least
    one digit; [None] stands for [ValueError]. *)
Definition int (s : string) : option Z :=
  match strip s with
  | String c r =>
      if Ascii.eqb c "-" then Z.opp <$> digits_from false 0 r
      else if Ascii.eqb c "+" then digits_from false 0 r
      else digits_from false 0 (String c r)
  | EmptyString => None
  end.

(** *** [float(s)] *)

(** The nearest binary64 to the positive rational [n / d], ties to even; a
    value beyond the largest finite float rounds to infinity.  The quotient
    is taken with at least 64 significant bits and one sticky bit for the
    remainder, and rounded once. *)
Definition nearest_float (n d : Z) : float :=
  let k := Z.max 0 (64 + Z.log2 d - Z.log2 n) in
  let num := n * 2 ^ k in
  let sticky := if num mod d =? 0 then 0 else 1 in
  SF2Prim (binary_normalize prec emax (2 * (num / d) + sticky) (- k - 1) false).

(** The float written [m * 10 ^ e] in decimal, for [0 <= m]. *)
Definition float_of_decimal (m e : Z) : float :=
  if m =? 0 then 0%float
  else if 0 <=? e then nearest_float (m * 10 ^ e) 1
  else nearest_float m (10 ^ (- e)).

(** Underscores are allowed only between two digits; they are removed
    before the number is read.  [prev] tells whether the previous character
    was a digit. *)
Fixpoint remove_underscores (prev : bool) (s : string) : option string :=
  match s with
  | String c r =>
      if Ascii.eqb c "_" then
        match r with
        | String c' _ =>
            if prev && isdigit c' then remove_underscores false r else None
        | EmptyString => None
        end
      else String c <$> remove_underscores (isdigit c) r
  | EmptyString => Some EmptyString
  end.

(** The longest prefix of digits: the number read after [acc], how many
    digits were read after [cnt], and the rest of the string. *)
Fixpoint take_digits (acc cnt : Z) (s : string) : Z * Z * string :=
  match s with
  | String c r =>
      if isdigit c then take_digits (10 * acc + digit_value c) (cnt + 1) r
      else (acc, cnt, s)
  | EmptyString => (acc, cnt, s)
  end.

(** The exponent part: empty, or [e]/[E], an optional sign and at least one
    digit, up to the end of the string. *)
Definition exponent (s : string) : option Z :=
  match s with
  | EmptyString => Some 0
  | String c r =>
      if Ascii.eqb c "e" || Ascii.eqb c "E" then
        let '(neg, r) :=
          match r with
          | String c' r' =>
              if Ascii.eqb c' "-" then (true, r')
              else if Ascii.eqb c' "+" then (false, r') else (false, r)
          | EmptyString => (false, r)
          end in
        match take_digits 0 0 r with
        | (x, cnt, EmptyString) =>
            if 0 <? cnt then Some (if neg then - x else x) else None
        | _ => None
        end
      else None
  end.

(** An unsigned decimal numeral: digits with an optional point, at least one
    digit before or after it, and an optional exponent. *)
Definition decimal (s : string) : option float :=
  let '(i, ni, r1) := take_digits 0 0 s in
  let '(m, nf, r2) :=
    match r1 with
    | String c r => if Ascii.eqb c "." then take_digits i 0 r else (i, 0, r1)
    | EmptyString => (i, 0, r1)
    end in
  if 0 <? ni + nf then
    x ← exponent r2; Some (float_of_decimal m (x - nf))
  else None.

Definition lower (c : ascii) : ascii :=
  let n := N_of_ascii c in
  if ((65 <=? n) && (n <=? 90))%N then ascii_of_N (n + 32) else c.

Fixpoint lowercase (s : string) : string :=
  match s with
  | String c r => String (lower c) (lowercase r)
  | EmptyString => EmptyString
  end.

(** An unsigned literal: [inf], [infinity] or [nan] in any case, or a
    decimal numeral. *)
Definition unsigned_float (s : string) : option float :=
  let l := lowercase s in
  if String.eqb l "inf" || String.eqb l "infinity" then Some infinity
  else if String.eqb l "nan" then Some nan
  else decimal s.

(** [float(s)]: surrounding whitespace, underscores between digits, one
    optional sign; [None] stands for [ValueError]. *)
Definition float (s : string) : option float :=
  s ← remove_underscores false (strip s);
  match s with
  | String c r =>
      if Ascii.eqb c "-" then PrimFloat.opp <$> unsigned_float r
      else if Ascii.eqb c "+" then unsigned_float r
      else unsigned_float s
  | EmptyString => None
  end.

(** [max(l)] for a list of floats: the first item is kept until a later one
    compares strictly greater; [None] stands for the [ValueError] of an
    empty sequence. *)
Definition max (l : list PrimFloat.float) : option PrimFloat.float :=
  match l with
  | x :: r => Some (fold_left (fun m y => if PrimFloat.ltb m y then y else m) r x)
  | [] => None
  end.

(** Python's list indices: for a list of length [len], [0 <= i < len] counts
    from the front and [-len <= i < 0] from the end; [None] stands for
    [IndexError]. *)
Definition position (len : nat) (i : Z) : option nat :=
  let n := Z.of_nat len in
  if (0 <=? i) && (i <? n) then Some (Z.to_nat i)
  else if (- n <=? i) && (i <? 0) then Some (Z.to_nat (n + i))
  else None.

(** [l[i]] *)
Definition getitem {A} (l : list A) (i : Z) : option A :=
  k ← position (length l) i; l !! k.

(** [l[i] = x] *)
Definition setitem {A} (l : list A) (i : Z) (x : A) : option (list A) :=
  k ← position (length l) i; Some (<[k := x]> l).

End Py.

(** ** Results and effects *)

(** A call either raises or returns. *)
#[export] Instance result_ret : MRet (sum exn) := fun A x => inr x.
#[export] Instance result_bind : MBind (sum exn) := fun A B f m =>
  match m with
  | inl e => inl e
  | inr x => f x
  end.

(** [None] of a built-in turned into the exception it stands for. *)
Definition or_raise {A} (e : exn) (o : option A) : exn + A :=
  match o with
  | Some x => inr x
  | None => inl e
  end.

(** A comprehension [[f(x) for x in l]]: items are evaluated in order and
    the first exception ends the evaluation. *)
Fixpoint comprehension {A B} (f : A -> exn + B) (l : list A) : exn + list B :=
  match l with
  | x :: r => y ← f x; ys ← comprehension f r; mret (y :: ys)
  | [] => mret []
  end.

(** What a call does to the outside: file-name expansion, a child process,
    a line on standard output. *)
Inductive event : Type :=
| Glob (pattern : string)
| Run (args : list string)
| Print (gid : Z) (temp_list : list float).

(** [subprocess.CompletedProcess] *)
Record CompletedProcess : Type := {
  returncode : Z;
  stdout : string;
  stderr : string
}.

(** What the outside answers during one call of [_get_nth_temp]: the reading
    of [time.monotonic()], the paths [glob.glob] finds for a pattern, and the
    outcome of [subprocess.run] for an argument vector. *)
Record World : Type := {
  monotonic : float;
  glob : string -> list string;
  run : list string -> exn + CompletedProcess
}.

(** [configparser.ConfigParser], as the sections and options it holds. *)
Abbreviation SectionProxy := (gmap string string).
Abbreviation ConfigParser := (gmap string (gmap string string)).

Module Config.

(** [config[name]] *)
Definition section (config : ConfigParser) (name : string) : exn + SectionProxy :=
  or_raise KeyError (config !! name).

(** [section.get(option, fallback)] *)
Definition get (s : SectionProxy) (option fallback : string) : string :=
  default fallback (s !! option).

(** [section.getint(option, fallback=...)] *)
Definition getint (s : SectionProxy) (option : string) (fallback : Z) : exn + Z :=
  match s !! option with
  | Some v => or_raise ValueError (Py.int v)
  | None => inr fallback
  end.

(** [section.getfloat(option, fallback=...)] *)
Definition getfloat (s : SectionProxy) (option : string) (fallback : float)
  : exn + float :=
  match s !! option with
  | Some v => or_raise ValueError (Py.float v)
  | None => inr fallback
  end.

End Config.

(** ** The rest of the package

    [GpuZone] derives from [smfc.fancontroller.FanController] and uses
    [smfc.log.Log] and [smfc.ipmi.Ipmi]; these modules are taken as given:
    the constructor of the base class, the attributes [polling] and [log] it
    leaves on the object, and the constants read here. *)
Class Package : Type := {
  Log : Type;
  log_level : Log -> Z;
  LOG_CONFIG : Z;
  Ipmi : Type;
  HD_ZONE : Z;
  CALC_AVG : Z;
  FanController : Type;
  FanController_init :
    Log -> Ipmi -> forall (ipmi_zone name : string) (count temp_calc steps : Z)
      (sensitivity polling min_temp max_temp : float) (min_level max_level : Z),
      exn + FanController;
  polling : FanController -> float;
  log : FanController -> Log
}.

(** ** [class GpuZone(FanController)] *)

Section GpuZone.
Context `{Package}.

Record GpuZone : Type := {
  base : FanController;
  gpu_device_ids : list Z;
  gpu_temperature : list float;
  temp_retrieved : list float
}.

Definition CS_GPU_ZONE : string := "GPU zone".
Definition CV_GPU_ZONE_ENABLED : string := "enabled".
Definition CV_GPU_IPMI_ZONE : string := "ipmi_zone".
Definition CV_GPU_ZONE_TEMP_CALC : string := "temp_calc".
Definition CV_GPU_ZONE_STEPS : string := "steps".
Definition CV_GPU_ZONE_SENSITIVITY : string := "sensitivity".
Definition CV_GPU_ZONE_POLLING : string := "polling".
Definition CV_GPU_ZONE_MIN_TEMP : string := "min_temp".
Definition CV_GPU_ZONE_MAX_TEMP : string := "max_temp".
Definition CV_GPU_ZONE_MIN_LEVEL : string := "min_level".
Definition CV_GPU_ZONE_MAX_LEVEL : string := "max_level".
Definition CV_GPU_ZONE_GPU_IDS : string := "gpu_device_ids".

(** *** [__init__] *)

(** [gpu_id_list.split("," if "," in gpu_id_list else " ")] *)
Definition tokens (gpu_id_list : string) : list string :=
  Py.split (if Py.contains "," gpu_id_list then "," else " ")%char gpu_id_list.

(** [gid not in range(0, 101)] *)
Definition not_in_range (gid : Z) : bool := negb ((0 <=? gid) && (gid <? 101)).

(** The loop over [self.gpu_device_ids] that rejects an id out of range. *)
Fixpoint check_ids (ids : list Z) : exn + unit :=
  match ids with
  | gid :: r => if not_in_range gid then inl ValueError else check_ids r
  | [] => inr tt
  end.

(** [str(l)] for a list of integers. *)
Definition repr_ids (l : list Z) : string :=
  "[" +:+ String.concat ", " (pretty <$> l) +:+ "]".

(** The value of [gpu_device_ids=] (["0"] when the option is absent) without
    surrounding whitespace and with runs of spaces squeezed. *)
Definition normalized_ids (s : SectionProxy) : string :=
  let gpu_id_list := Config.get s CV_GPU_ZONE_GPU_IDS "0" in
  Py.squeeze_spaces (Py.strip gpu_id_list).

(** The constructor returns the new object and the lines it sent to the
    log, each with its level. *)
Definition __init__ (log0 : Log) (ipmi : Ipmi) (config : ConfigParser)
  : exn + (GpuZone * list (Z * string)) :=
  s ← Config.section config CS_GPU_ZONE;
  let gpu_id_list := normalized_ids s in
  ids ← comprehension (fun s => or_raise ValueError (Py.int s)) (tokens gpu_id_list);
  _ ← check_ids ids;
  let count := length ids in
  let temp_retrieved0 := replicate count 0%float in
  let gpu_temperature0 := replicate count 0%float in
  s ← Config.section config CS_GPU_ZONE;
  let ipmi_zone := Config.get s CV_GPU_IPMI_ZONE (pretty HD_ZONE) in
  s ← Config.section config CS_GPU_ZONE;
  temp_calc ← Config.getint s CV_GPU_ZONE_TEMP_CALC CALC_AVG;
  s ← Config.section config CS_GPU_ZONE;
  steps ← Config.getint s CV_GPU_ZONE_STEPS 5;
  s ← Config.section config CS_GPU_ZONE;
  sensitivity ← Config.getfloat s CV_GPU_ZONE_SENSITIVITY 2%float;
  s ← Config.section config CS_GPU_ZONE;
  polling0 ← Config.getfloat s CV_GPU_ZONE_POLLING 2%float;
  s ← Config.section config CS_GPU_ZONE;
  min_temp ← Config.getfloat s CV_GPU_ZONE_MIN_TEMP 40%float;
  s ← Config.section config CS_GPU_ZONE;
  max_temp ← Config.getfloat s CV_GPU_ZONE_MAX_TEMP 70%float;
  s ← Config.section config CS_GPU_ZONE;
  min_level ← Config.getint s CV_GPU_ZONE_MIN_LEVEL 35;
  s ← Config.section config CS_GPU_ZONE;
  max_level ← Config.getint s CV_GPU_ZONE_MAX_LEVEL 100;
  b ← FanController_init log0 ipmi ipmi_zone CS_GPU_ZONE (Z.of_nat count)
        temp_calc steps sensitivity polling0 min_temp max_temp
        min_level max_level;
  let self := {| base := b; gpu_device_ids := ids;
                 gpu_temperature := gpu_temperature0;
                 temp_retrieved := temp_retrieved0 |} in
  mret (self,
        if LOG_CONFIG <=? log_level (log b)
        then [(LOG_CONFIG, "   " +:+ CV_GPU_ZONE_GPU_IDS +:+ " = " +:+ repr_ids ids)]
        else []).

(** *** [_get_nth_temp] *)

(** A method call ends with a result or an exception, leaves the object in
    some state either way, and has sent some events to the outside. *)
Record Outcome (A : Type) : Type := {
  result : exn + A;
  after : GpuZone;
  trace : list event
}.
Arguments result {A} _.
Arguments after {A} _.
Arguments trace {A} _.

(** A method body, run on the state of [self]. *)
Definition M (A : Type) : Type := GpuZone -> Outcome A.

#[export] Instance M_ret : MRet M := fun A x self =>
  {| result := inr x; after := self; trace := [] |}.

#[export] Instance M_bind : MBind M := fun A B f m self =>
  match m self with
  | {| result := inl e; after := self1; trace := t1 |} =>
      {| result := inl e; after := self1; trace := t1 |}
  | {| result := inr x; after := self1; trace := t1 |} =>
      match f x self1 with
      | {| result := r; after := self2; trace := t2 |} =>
          {| result := r; after := self2; trace := t1 ++ t2 |}
      end
  end.

Definition raise {A} (e : exn) : M A := fun self =>
  {| result := inl e; after := self; trace := [] |}.

Definition lift {A} (r : exn + A) : M A := fun self =>
  {| result := r; after := self; trace := [] |}.

Definition emit (ev : event) : M unit := fun self =>
  {| result := inr tt; after := self; trace := [ev] |}.

(** [self.attr] and [self.attr[index]] *)
Definition attr {A} (f : GpuZone -> A) : M A := fun self =>
  {| result := inr (f self); after := self; trace := [] |}.

Definition item {A} (f : GpuZone -> list A) (index : Z) : M A := fun self =>
  {| result := or_raise IndexError (Py.getitem (f self) index);
     after := self; trace := [] |}.

Definition with_temp_retrieved (self : GpuZone) (l : list float) : GpuZone :=
  {| base := base self; gpu_device_ids := gpu_device_ids self;
     gpu_temperature := gpu_temperature self; temp_retrieved := l |}.

Definition with_gpu_temperature (self : GpuZone) (l : list float) : GpuZone :=
  {| base := base self; gpu_device_ids := gpu_device_ids self;
     gpu_temperature := l; temp_retrieved := temp_retrieved self |}.

(** [self.temp_retrieved[index] = x] *)
Definition set_temp_retrieved (index : Z) (x : float) : M unit := fun self =>
  match Py.setitem (temp_retrieved self) index x with
  | Some l => {| result := inr tt; after := with_temp_retrieved self l; trace := [] |}
  | None => {| result := inl IndexError; after := self; trace := [] |}
  end.

(** [self.gpu_temperature[index] = x] *)
Definition set_gpu_temperature (index : Z) (x : float) : M unit := fun self =>
  match Py.setitem (gpu_temperature self) index x with
  | Some l => {| result := inr tt; after := with_gpu_temperature self l; trace := [] |}
  | None => {| result := inl IndexError; after := self; trace := [] |}
  end.

(** [float(temp.split(":")[1]) / 1000] *)
Definition scaled_field (temp : string) : exn + float :=
  field ← or_raise IndexError (Py.getitem (Py.split ":" temp) 1);
  x ← or_raise ValueError (Py.float field);
  mret (x / 1000)%float.

(** The pattern given to [glob.glob]. *)
Definition hwmon_pattern (gid : Z) : string :=
  "/sys/class/drm/card" +:+ pretty gid +:+ "/device/hwmon/*/temp*_input".
Arguments hwmon_pattern : simpl never.

Definition _get_nth_temp (w : World) (index : Z) : M float :=
  let current_time := monotonic w in
  last ← item temp_retrieved index;
  p ← attr (fun self => polling (base self));
  _ ← (if PrimFloat.leb p (current_time - last)%float then
         gid ← item gpu_device_ids index;
         _ ← emit (Glob (hwmon_pattern gid));
         let paths := glob w (hwmon_pattern gid) in
         _ ← match paths with
             | [] => raise FileNotFoundError
             | _ :: _ => mret tt
             end;
         let args := "grep" :: "." :: paths in
         _ ← emit (Run args);
         r ← lift (run w args);
         _ ← set_temp_retrieved index current_time;
         let temp_list := Py.splitlines (stdout r) in
         temp_list ← lift (comprehension scaled_field temp_list);
         gid ← item gpu_device_ids index;
         _ ← emit (Print gid temp_list);
         m ← lift (or_raise ValueError (Py.max temp_list));
         set_gpu_temperature index m
       else mret tt);
  item gpu_temperature index.

(** The three per-index lists have one entry per configured device. *)
Definition consistent (self : GpuZone) : Prop :=
  length (temp_retrieved self) = length (gpu_device_ids self) /\
  length (gpu_temperature self) = length (gpu_device_ids self).

(** A call that raised [e], leaving [self] and the events [t]. *)
Definition raised {A} (e : exn) (self : GpuZone) (t : list event) : Outcome A :=
  {| result := inl e; after := self; trace := t |}.

End GpuZone.

Arguments result {_ _} _.
Arguments after {_ _} _.
Arguments trace {_ _} _.
Arguments hwmon_pattern : simpl never.

(** ** A concrete package and concrete runs *)

Module Sample.

(** A base class that keeps the polling interval and the log it is given,
    and rejects a negative interval. *)
#[export] Instance package : Package := {|
  Log := Z;
  log_level := fun l => l;
  LOG_CONFIG := 3;
  Ipmi := unit;
  HD_ZONE := 1;
  CALC_AVG := 1;
  FanController := float * Z;
  FanController_init := fun log0 _ _ _ _ _ _ _ polling0 _ _ _ _ =>
    if PrimFloat.ltb polling0 0 then inl ValueError else inr (polling0, log0);
  polling := fst;
  log := snd
|}.

Definition nl : string := String "010" EmptyString.

(** [gpu_device_ids=] with the given value and no other option. *)
Definition config_ids (v : string) : ConfigParser :=
  {[ "GPU zone" := {[ "gpu_device_ids" := v ]} ]}.

Definition card0 (n : string) : string :=
  "/sys/class/drm/card0/device/hwmon/hwmon1/temp" +:+ n +:+ "_input".

(** A machine where card 0 has the given sensor files and [grep] prints the
    given text. *)
Definition machine (now : float) (paths : list string) (out : string) : World :=
  {| monotonic := now;
     glob := fun p => if String.eqb p (hwmon_pattern 0) then paths else [];
     run := fun _ => inr {| returncode := 0; stdout := out; stderr := "" |} |}.

(** Three sensors of card 0 reading 45000, 52000 and 38000. *)
Definition three_sensors (now : float) : World :=
  machine now [card0 "1"; card0 "2"; card0 "3"]
    (card0 "1" +:+ ":45000" +:+ nl +:+ card0 "2" +:+ ":52000" +:+ nl
     +:+ card0 "3" +:+ ":38000" +:+ nl).

(** One sensor of card 0: [grep] prints the line without the file name. *)
Definition one_sensor (now : float) : World :=
  machine now [card0 "1"] ("60000" +:+ nl).

(** Two sensors of card 0, the second one printing no number. *)
Definition unreadable_sensor (now : float) : World :=
  machine now [card0 "1"; card0 "2"]
    (card0 "1" +:+ ":45000" +:+ nl +:+ card0 "2" +:+ ":n/a" +:+ nl).

(** No sensor file at all. *)
Definition no_sensor (now : float) : World := machine now [] "".

(** A zone for the given devices, never polled, polling every 2 s. *)
Definition fresh (ids : list Z) : GpuZone :=
  {| base := (2%float, 0); gpu_device_ids := ids;
     gpu_temperature := replicate (length ids) 0%float;
     temp_retrieved := replicate (length ids) 0%float |}.

(** A zone for cards 0 and 1, both polled at time 100. *)
Definition polled : GpuZone :=
  {| base := (2%float, 0); gpu_device_ids := [0; 1];
     gpu_temperature := [41%float; 63%float];
     temp_retrieved := [100%float; 100%float] |}.

(** Card 0 has one sensor file and there is no [grep] to run. *)
Definition grep_missing (now : float) : World :=
  {| monotonic := now;
     glob := fun p => if String.eqb p (hwmon_pattern 0) then [card0 "1"] else [];
     run := fun _ => inl FileNotFoundError |}.

(** Two sensor files of card 0 that [grep] finds empty. *)
Definition silent_sensors (now : float) : World :=
  machine now [card0 "1"; card0 "2"] "".

End Sample.

(** ** Vocabulary for written id lists *)

(** A token as one writes an id: no whitespace and no comma in it. *)
Fixpoint plain (t : string) : bool :=
  match t with
  | String c r => negb (Py.isspace c) && negb (Ascii.eqb c ",") && plain r
  | EmptyString => true
  end.

(** Tokens, none of them empty. *)
Definition words (l : list string) : Prop :=
  Forall (fun t => plain t = true /\ t <> "") l.

(** [sep.join(l)] for a one-character [sep]. *)
Definition joined (c : ascii) (l : list string) : string :=
  String.concat (String c "") l.

(** ** Facts on binary64 comparisons *)

Section FloatOrder.

Lemma SFcompare_antisym (x y : spec_float) :
  SFcompare y x = CompOpp <$> SFcompare x y.
Proof.
  destruct x as [sx|sx| |sx mx ex], y as [sy|sy| |sy my ey]; simpl;
    try reflexivity; try (destruct sx; reflexivity); try (destruct sy; reflexivity);
    try (destruct sx, sy; reflexivity).
  destruct sx, sy; simpl; try reflexivity;
    rewrite (Z.compare_antisym ex ey);
    destruct (ex ?= ey); simpl; try reflexivity;
    rewrite (Pos.compare_cont_antisym mx my Eq); simpl;
    try rewrite CompOpp_involutive; reflexivity.
Qed.

Lemma SFcompare_Lt_trans (x y z : spec_float) :
  SFcompare x y = Some Lt -> SFcompare y z = Some Lt -> SFcompare x z = Some Lt.
Proof.
  destruct x as [sx|sx| |sx mx ex], y as [sy|sy| |sy my ey],
           z as [sz|sz| |sz mz ez]; simpl; try discriminate;
    try (destruct sx; try discriminate); try (destruct sy; try discriminate);
    try (destruct sz; try discriminate); try reflexivity; try discriminate;
    rewrite ?Pos.compare_cont_spec; simpl;
    destruct (Z.compare_spec ex ey), (Z.compare_spec ey ez);
    try discriminate; intros Hxy Hyz;
    destruct (Z.compare_spec ex ez); try lia; try reflexivity; subst;
    destruct (Pos.compare_spec mx my), (Pos.compare_spec my mz);
    try discriminate; destruct (Pos.compare_spec mx mz); simpl; try lia; reflexivity.
Qed.

(** [a < b] excludes [b <= a]. *)
Lemma ltb_not_leb (a b : float) :
  PrimFloat.ltb a b = true -> PrimFloat.leb b a = false.
Proof.
  rewrite ltb_spec, leb_spec. unfold SFltb, SFleb.
  rewrite (SFcompare_antisym (Prim2SF a) (Prim2SF b)).
  destruct (SFcompare (Prim2SF a) (Prim2SF b)) as [[]|]; simpl; congruence.
Qed.

Lemma ltb_leb (a b : float) :
  PrimFloat.ltb a b = true -> PrimFloat.leb a b = true.
Proof.
  rewrite ltb_spec, leb_spec. unfold SFltb, SFleb.
  destruct (SFcompare (Prim2SF a) (Prim2SF b)) as [[]|]; congruence.
Qed.

Lemma ltb_irrefl (a : float) : PrimFloat.ltb a a = false.
Proof.
  destruct (PrimFloat.ltb a a) eqn:E; [|done].
  pose proof (ltb_not_leb _ _ E). pose proof (ltb_leb _ _ E). congruence.
Qed.

Lemma ltb_trans (a b c : float) :
  PrimFloat.ltb a b = true -> PrimFloat.ltb b c = true -> PrimFloat.ltb a c = true.
Proof.
  rewrite !ltb_spec. unfold SFltb. intros Hab Hbc.
  rewrite (SFcompare_Lt_trans (Prim2SF a) (Prim2SF b) (Prim2SF c)); [done| |].
  - destruct (SFcompare (Prim2SF a) (Prim2SF b)) as [[]|]; congruence.
  - destruct (SFcompare (Prim2SF b) (Prim2SF c)) as [[]|]; congruence.
Qed.


End FloatOrder.

(** ** Facts on the built-ins *)

Module PyFacts.

Lemma position_lt (len : nat) (i : Z) (k : nat) :
  Py.position len i = Some k -> (k < len)%nat.
Proof.
  unfold Py.position. repeat case_match; intros; simplify_eq; lia.
Qed.

Lemma position_front (len : nat) (i : Z) :
  0 <= i < Z.of_nat len -> Py.position len i = Some (Z.to_nat i).
Proof.
  intros. unfold Py.position.
  replace ((0 <=? i) && (i <? Z.of_nat len)) with true by lia. done.
Qed.

Lemma position_back (len : nat) (i : Z) :
  - Z.of_nat len <= i < 0 -> Py.position len i = Py.position len (i + Z.of_nat len).
Proof.
  intros. unfold Py.position.
  replace ((0 <=? i) && (i <? Z.of_nat len)) with false by lia.
  replace ((- Z.of_nat len <=? i) && (i <? 0)) with true by lia.
  replace ((0 <=? i + Z.of_nat len) && (i + Z.of_nat len <? Z.of_nat len))
    with true by lia.
  f_equal. lia.
Qed.

Lemma position_outside (len : nat) (i : Z) :
  i < - Z.of_nat len \/ Z.of_nat len <= i <-> Py.position len i = None.
Proof.
  unfold Py.position. repeat case_match; split; intros; try done; lia.
Qed.

Lemma getitem_is_Some {A} (l : list A) (i : Z) (k : nat) :
  Py.position (length l) i = Some k -> is_Some (Py.getitem l i).
Proof.
  intros Hk. unfold Py.getitem. rewrite Hk. simpl.
  apply lookup_lt_is_Some. by eapply position_lt.
Qed.

Lemma getitem_outside {A} (l : list A) (i : Z) :
  Py.getitem l i = None <-> i < - Z.of_nat (length l) \/ Z.of_nat (length l) <= i.
Proof.
  rewrite position_outside. split.
  - intros Hg. destruct (Py.position (length l) i) as [k|] eqn:Hk; [|done].
    destruct (getitem_is_Some l i k Hk) as [x Hx]. congruence.
  - intros Hk. unfold Py.getitem. by rewrite Hk.
Qed.

Lemma getitem_front {A} (l : list A) (i : Z) :
  0 <= i < Z.of_nat (length l) -> Py.getitem l i = l !! Z.to_nat i.
Proof. intros. unfold Py.getitem. by rewrite position_front. Qed.

Lemma getitem_nonneg {A} (l : list A) (i : Z) :
  0 <= i -> Py.getitem l i = l !! Z.to_nat i.
Proof.
  intros Hi. destruct (decide (i < Z.of_nat (length l))) as [Hlt|Hge].
  - apply getitem_front. lia.
  - rewrite lookup_ge_None_2 by lia. apply getitem_outside. lia.
Qed.

Lemma getitem_setitem {A} (l l' : list A) (i : Z) (x : A) :
  Py.setitem l i x = Some l' -> Py.getitem l' i = Some x.
Proof.
  unfold Py.setitem, Py.getitem.
  destruct (Py.position (length l) i) as [k|] eqn:Hk; simpl; [|done].
  intros [= <-]. rewrite length_insert, Hk. simpl.
  apply list_lookup_insert_eq. by eapply position_lt.
Qed.

Lemma setitem_length {A} (l l' : list A) (i : Z) (x : A) :
  Py.setitem l i x = Some l' -> length l' = length l.
Proof.
  unfold Py.setitem. destruct (Py.position (length l) i); simpl; [|done].
  intros [= <-]. apply length_insert.
Qed.

(** [max] returns an item of the list that no item exceeds. *)
Lemma max_fold (r seen : list float) (x : float) :
  x ∈ seen -> (forall y, y ∈ seen -> PrimFloat.ltb x y = false) ->
  let m := fold_left (fun m y => if PrimFloat.ltb m y then y else m) r x in
  m ∈ (seen ++ r)%list /\ forall y, y ∈ (seen ++ r)%list -> PrimFloat.ltb m y = false.
Proof.
  revert seen x. induction r as [|y r IH]; intros seen x Hin Hmax; simpl.
  - by rewrite app_nil_r.
  - replace (seen ++ y :: r)%list with ((seen ++ [y]) ++ r)%list by by rewrite <- app_assoc.
    apply IH; destruct (PrimFloat.ltb x y) eqn:Hxy.
    + rewrite elem_of_app, list_elem_of_singleton. by right.
    + rewrite elem_of_app. by left.
    + intros z [Hz | ->%list_elem_of_singleton]%elem_of_app.
      * destruct (PrimFloat.ltb y z) eqn:Hyz; [|done].
        rewrite <- (Hmax z Hz). symmetry. by eapply ltb_trans.
      * apply ltb_irrefl.
    + intros z [Hz | ->%list_elem_of_singleton]%elem_of_app; auto.
Qed.

Lemma max_spec (l : list float) (m : float) :
  Py.max l = Some m ->
  m ∈ l /\ forall y, y ∈ l -> PrimFloat.ltb m y = false.
Proof.
  destruct l as [|x r]; [done|]. intros [= <-].
  apply (max_fold r [x] x); [set_solver|].
  intros y ->%list_elem_of_singleton. apply ltb_irrefl.
Qed.

Lemma max_is_Some (l : list float) : l <> [] -> is_Some (Py.max l).
Proof. destruct l; [done|]. by eexists. Qed.

(** A field separator splits off the first field. *)
Lemma split_no_sep (sep : ascii) (s : string) :
  Py.contains sep s = false -> Py.split sep s = [s].
Proof.
  induction s as [|c s IH]; simpl; [done|].
  destruct (Ascii.eqb c sep); simpl; [done|]. intros Hs. by rewrite IH.
Qed.

Lemma split_first (sep : ascii) (a b : string) :
  Py.contains sep a = false ->
  Py.split sep (a +:+ String sep b) = a :: Py.split sep b.
Proof.
  induction a as [|c a IH]; intros Ha.
  - simpl. by rewrite Ascii.eqb_refl.
  - simpl in Ha. destruct (Ascii.eqb c sep) eqn:Hc; [done|].
    change (String c a +:+ String sep b) with (String c (a +:+ String sep b)).
    cbn [Py.split]. rewrite Hc, IH; done.
Qed.

End PyFacts.

(** ** Facts on comprehensions *)

Section Comprehension.
Context {A B : Type} (f : A -> exn + B).

Lemma comprehension_inr (l : list A) (ys : list B) :
  comprehension f l = inr ys <-> Forall2 (fun x y => f x = inr y) l ys.
Proof.
  revert ys. induction l as [|x l IH]; intros ys; simpl.
  - split; [intros [= <-]; constructor | by inversion 1].
  - unfold mbind, result_bind, mret, result_ret.
    destruct (f x) as [e|y] eqn:Hx.
    + split; [done|]. inversion 1; congruence.
    + destruct (comprehension f l) as [e|ys'] eqn:Hl.
      * split; [done|]. inversion 1 as [|? ? ? ys' ? Hys]; subst.
        apply IH in Hys. congruence.
      * split.
        -- intros [= <-]. constructor; [done|]. by apply IH.
        -- inversion 1 as [|? ? ? ys'' Hy Hys]; subst.
           apply IH in Hys. congruence.
Qed.

(** A failing item makes the comprehension fail, with the exception of the
    first failing item. *)
Lemma comprehension_inl (pre post : list A) (x : A) (e : exn) :
  Forall (fun a => exists b, f a = inr b) pre -> f x = inl e ->
  comprehension f (pre ++ x :: post) = inl e.
Proof.
  induction 1 as [|a pre [b Hb] _ IH]; intros Hx; simpl;
    unfold mbind, result_bind.
  - by rewrite Hx.
  - rewrite Hb. by rewrite (IH Hx).
Qed.

Lemma comprehension_fails (l : list A) (x : A) (e : exn) :
  x ∈ l -> f x = inl e -> exists e', comprehension f l = inl e'.
Proof.
  induction 1 as [x l|x a l _ IH]; intros Hx; simpl; unfold mbind, result_bind.
  - rewrite Hx. by eexists.
  - destruct (f a); [by eexists|]. destruct (IH Hx) as [e' ->]. by eexists.
Qed.

(** When every item can only raise [e], so can the comprehension. *)
Lemma comprehension_only (e : exn) (l : list A) (e' : exn) :
  (forall a e'', f a = inl e'' -> e'' = e) ->
  comprehension f l = inl e' -> e' = e.
Proof.
  intros Hf. induction l as [|a l IH]; simpl; [done|].
  unfold mbind, result_bind. destruct (f a) as [e''|b] eqn:Ha.
  - intros [= <-]. eauto.
  - destruct (comprehension f l); [|done]. intros [= <-]. auto.
Qed.

End Comprehension.

(** ** Facts on [GpuZone] *)

Section GpuZoneFacts.
Context `{Package}.

(** The body of [_get_nth_temp], one case per way it can end. *)
Lemma get_nth_temp_cases (w : World) (index : Z) (self : GpuZone) :
  _get_nth_temp w index self =
  match Py.getitem (temp_retrieved self) index with
  | None => raised IndexError self []
  | Some last =>
    if PrimFloat.leb (polling (base self)) (monotonic w - last)%float then
      match Py.getitem (gpu_device_ids self) index with
      | None => raised IndexError self []
      | Some gid =>
        match glob w (hwmon_pattern gid) with
        | [] => raised FileNotFoundError self [Glob (hwmon_pattern gid)]
        | p :: ps =>
          let args := "grep" :: "." :: p :: ps in
          let io := [Glob (hwmon_pattern gid); Run args] in
          match run w args with
          | inl e => raised e self io
          | inr r =>
            match Py.setitem (temp_retrieved self) index (monotonic w) with
            | None => raised IndexError self io
            | Some tr =>
              let self1 := with_temp_retrieved self tr in
              match comprehension scaled_field (Py.splitlines (stdout r)) with
              | inl e => raised e self1 io
              | inr temps =>
                let io' := [Glob (hwmon_pattern gid); Run args; Print gid temps] in
                match Py.max temps with
                | None => raised ValueError self1 io'
                | Some m =>
                  match Py.setitem (gpu_temperature self) index m with
                  | None => raised IndexError self1 io'
                  | Some gt =>
                    {| result := inr m; after := with_gpu_temperature self1 gt;
                       trace := io' |}
                  end
                end
              end
            end
          end
        end
      end
    else {| result := or_raise IndexError (Py.getitem (gpu_temperature self) index);
            after := self; trace := [] |}
  end.
Proof.
  unfold _get_nth_temp, raised, mbind, M_bind, mret, M_ret, item, attr, emit,
    lift, raise, set_temp_retrieved, set_gpu_temperature.
  cbn [result after trace].
  destruct (Py.getitem (temp_retrieved self) index) as [last|]; cbn; [|done].
  destruct (PrimFloat.leb _ _); cbn; [|done].
  destruct (Py.getitem (gpu_device_ids self) index) as [gid|] eqn:Hgid; cbn;
    [|done].
  destruct (glob w (hwmon_pattern gid)) as [|p ps]; cbn; [done|].
  destruct (run w _) as [e|r]; cbn; [done|].
  destruct (Py.setitem (temp_retrieved self) index _) as [tr|]; cbn; [|done].
  destruct (comprehension _ _) as [e|temps]; cbn; [done|].
  rewrite Hgid; cbn.
  destruct (Py.max temps) as [m|]; cbn; [|done].
  destruct (Py.setitem (gpu_temperature self) index m) as [gt|] eqn:Hgt; cbn; [|done].
  by rewrite (PyFacts.getitem_setitem _ _ _ _ Hgt).
Qed.

(** *** Construction *)

Lemma check_ids_inr (ids : list Z) :
  check_ids ids = inr tt <-> Forall (fun gid => 0 <= gid <= 100) ids.
Proof.
  induction ids as [|gid ids IH]; simpl.
  - split; [constructor | done].
  - unfold not_in_range. destruct ((0 <=? gid) && (gid <? 101)) eqn:Hr; simpl.
    + rewrite IH. split; [constructor; [lia | done] | by inversion 1].
    + split; [done|]. inversion 1; lia.
Qed.

Lemma check_ids_inl (ids : list Z) (e : exn) :
  check_ids ids = inl e -> e = ValueError.
Proof.
  induction ids as [|gid ids IH]; simpl; [done|].
  destruct (not_in_range gid); [congruence | done].
Qed.

(** What a successful construction has gone through. *)
Lemma init_inr (log0 : Log) (ipmi : Ipmi) (config : ConfigParser)
    (self : GpuZone) (msgs : list (Z * string)) :
  __init__ log0 ipmi config = inr (self, msgs) ->
  exists s,
    config !! CS_GPU_ZONE = Some s /\
    comprehension (fun t => or_raise ValueError (Py.int t))
      (tokens (normalized_ids s)) = inr (gpu_device_ids self) /\
    check_ids (gpu_device_ids self) = inr tt /\
    temp_retrieved self = replicate (length (gpu_device_ids self)) 0%float /\
    gpu_temperature self = replicate (length (gpu_device_ids self)) 0%float.
Proof.
  unfold __init__, Config.section, mbind, result_bind, mret, result_ret.
  destruct (config !! CS_GPU_ZONE) as [s|]; cbv beta iota zeta delta [or_raise];
    [|done].
  destruct (comprehension _ _) as [e|ids] eqn:Hids; cbv beta iota; [done|].
  destruct (check_ids ids) as [e|[]] eqn:Hok; cbv beta iota; [done|].
  repeat match goal with
         | |- context [match ?r with inl _ => _ | inr _ => _ end] =>
             destruct r; cbv beta iota; [done|]
         end.
  intros ?; simplify_eq. exists s. simpl. by rewrite Hids.
Qed.

(** A bad token or an id out of range ends the construction. *)
Lemma init_inl (log0 : Log) (ipmi : Ipmi) (config : ConfigParser)
    (s : SectionProxy) :
  config !! CS_GPU_ZONE = Some s ->
  (forall ids, comprehension (fun t => or_raise ValueError (Py.int t))
                 (tokens (normalized_ids s)) = inr ids ->
               check_ids ids <> inr tt) ->
  __init__ log0 ipmi config = inl ValueError.
Proof.
  intros Hs Hbad. unfold __init__, Config.section, mbind, result_bind.
  rewrite Hs. cbn [or_raise]. cbv beta iota zeta.
  destruct (comprehension _ _) as [e|ids] eqn:Hc.
  - f_equal. eapply comprehension_only; [|exact Hc].
    intros a e'. cbv beta. destruct (Py.int a); simpl; congruence.
  - destruct (check_ids ids) as [e|[]] eqn:Hk.
    + f_equal. by eapply check_ids_inl.
    + by destruct (Hbad ids).
Qed.


Lemma Forall2_and_r {A B} (P : A -> B -> Prop) (Q : B -> Prop)
    (l : list A) (k : list B) :
  Forall2 P l k -> Forall Q k -> Forall2 (fun a b => P a b /\ Q b) l k.
Proof.
  induction 1; inversion 1; subst; constructor; auto.
Qed.

Lemma tokens_parsed (s : SectionProxy) (ids : list Z) :
  comprehension (fun t => or_raise ValueError (Py.int t))
    (tokens (normalized_ids s)) = inr ids ->
  Forall2 (fun t gid => Py.int t = Some gid) (tokens (normalized_ids s)) ids.
Proof.
  rewrite comprehension_inr. intros Hall. eapply Forall2_impl; [exact Hall|].
  intros t gid. cbv beta. destruct (Py.int t); simpl; congruence.
Qed.

(** C5: construction reads [gpu_device_ids=] (["0"] when absent), strips it
    and squeezes runs of spaces, and splits it on [","] when it holds a comma
    and on [" "] otherwise.  When some token is not an integer or is an
    integer outside [0,100], construction raises [ValueError]; when
    construction succeeds, the ids are the tokens parsed in order, each in
    [0,100]: no token is replaced by a default. *)
Theorem init_validates_ids (log0 : Log) (ipmi : Ipmi) (config : ConfigParser)
    (s : SectionProxy) :
  config !! "GPU zone" = Some s ->
  let text := Py.squeeze_spaces (Py.strip (default "0" (s !! "gpu_device_ids"))) in
  let toks := Py.split (if Py.contains "," text then "," else " ")%char text in
  ((exists t, t ∈ toks /\
      (Py.int t = None \/ exists gid, Py.int t = Some gid /\ (gid < 0 \/ 100 < gid))) ->
   __init__ log0 ipmi config = inl ValueError) /\
  (forall self msgs,
     __init__ log0 ipmi config = inr (self, msgs) ->
     Forall2 (fun t gid => Py.int t = Some gid /\ 0 <= gid <= 100)
       toks (gpu_device_ids self)).
Proof.
  intros Hs text toks. split.
  - intros (t & Ht & Hbad). apply (init_inl _ _ _ s Hs).
    intros ids Hids%tokens_parsed Hok%check_ids_inr.
    apply list_elem_of_lookup in Ht as [i Hi].
    destruct (Forall2_lookup_l _ _ _ _ _ Hids Hi) as (gid & Hgid & Hint).
    destruct Hbad as [Hnone | (gid' & Hsome & Hout)]; [congruence|].
    assert (gid' = gid) as -> by congruence.
    pose proof (Forall_lookup_1 _ _ _ _ Hok Hgid) as Hin. simpl in Hin. lia.
  - intros self msgs (s' & Hs' & Hids%tokens_parsed & Hok%check_ids_inr & _)%init_inr.
    assert (s' = s) as -> by (change CS_GPU_ZONE with "GPU zone" in Hs'; congruence).
    by apply Forall2_and_r.
Qed.

(** C7, as the code has it: after a successful construction
    [gpu_device_ids] holds one id per token of the option, in the order of
    the tokens, each in [0,100]; a repeated id is kept as often as it is
    written. *)
Theorem init_ids_in_range (log0 : Log) (ipmi : Ipmi) (config : ConfigParser)
    (self : GpuZone) (msgs : list (Z * string)) :
  __init__ log0 ipmi config = inr (self, msgs) ->
  Forall (fun gid => 0 <= gid <= 100) (gpu_device_ids self) /\
  exists s, config !! "GPU zone" = Some s /\
    Forall2 (fun t gid => Py.int t = Some gid)
      (tokens (normalized_ids s)) (gpu_device_ids self).
Proof.
  intros (s & Hs & Hids%tokens_parsed & Hok%check_ids_inr & _)%init_inr.
  split; [done|]. by exists s.
Qed.


(** *** Reads *)

(** A read changes neither the base object nor the device list nor the
    length of a cache list. *)
Lemma read_frame (w : World) (index : Z) (self : GpuZone) :
  let self' := after (_get_nth_temp w index self) in
  base self' = base self /\
  gpu_device_ids self' = gpu_device_ids self /\
  length (temp_retrieved self') = length (temp_retrieved self) /\
  length (gpu_temperature self') = length (gpu_temperature self).
Proof.
  rewrite get_nth_temp_cases. cbv zeta.
  repeat case_match; simpl; repeat split;
    eauto using PyFacts.setitem_length.
Qed.

Lemma read_consistent (w : World) (index : Z) (self : GpuZone) :
  consistent self -> consistent (after (_get_nth_temp w index self)).
Proof.
  unfold consistent. destruct (read_frame w index self) as (_ & -> & -> & ->).
  done.
Qed.

(** A read that returns leaves what it returned in the cache. *)
Lemma read_result_cached (w : World) (index : Z) (self : GpuZone) (v : float) :
  result (_get_nth_temp w index self) = inr v ->
  Py.getitem (gpu_temperature (after (_get_nth_temp w index self))) index = Some v.
Proof.
  rewrite get_nth_temp_cases. cbv zeta.
  repeat case_match; simpl; try done.
  - intros [= <-]. by eapply PyFacts.getitem_setitem.
  - destruct (Py.getitem (gpu_temperature self) index); simpl; congruence.
Qed.

(** A valid index, under Python's indexing, is the position itself. *)
Lemma getitem_valid {A} (l : list A) (ids : list Z) (index : Z) (x : A) :
  length l = length ids -> 0 <= index < Z.of_nat (length ids) ->
  l !! Z.to_nat index = Some x -> Py.getitem l index = Some x.
Proof. intros Hl Hi Hx. rewrite PyFacts.getitem_front; [done | lia]. Qed.

Lemma setitem_valid {A} (l : list A) (ids : list Z) (index : Z) (x : A) :
  length l = length ids -> 0 <= index < Z.of_nat (length ids) ->
  Py.setitem l index x = Some (<[Z.to_nat index := x]> l).
Proof.
  intros Hl Hi. unfold Py.setitem. rewrite PyFacts.position_front; [done | lia].
Qed.

Lemma scaled_field_inr (line : string) (t : float) :
  scaled_field line = inr t <->
  exists raw x, Py.split ":" line !! 1%nat = Some raw /\ Py.float raw = Some x /\
    t = (x / 1000)%float.
Proof.
  unfold scaled_field, mbind, result_bind, mret, result_ret.
  rewrite PyFacts.getitem_nonneg by done. change (Z.to_nat 1) with 1%nat.
  destruct (Py.split ":" line !! 1%nat) as [raw|]; simpl.
  - destruct (Py.float raw) as [x|] eqn:Hx; simpl.
    + split; [intros [= <-]; eauto|]. intros (raw' & x' & [= <-] & Hx' & ->).
      congruence.
    + split; [done|]. intros (raw' & x' & [= <-] & Hx' & _). congruence.
  - split; [done|]. by intros (? & ? & [=] & _).
Qed.

Lemma scaled_field_inl (line : string) (e : exn) :
  scaled_field line = inl e -> e = IndexError \/ e = ValueError.
Proof.
  unfold scaled_field, mbind, result_bind.
  destruct (Py.getitem _ _); simpl; [|intros [= <-]; by left].
  destruct (Py.float _); simpl; [done|]. intros [= <-]; by right.
Qed.

Lemma scaled_field_no_colon (line : string) :
  Py.contains ":" line = false -> scaled_field line = inl IndexError.
Proof. intros Hc. unfold scaled_field. by rewrite PyFacts.split_no_sep. Qed.

(** A read whose polling interval has elapsed and whose sources exist, up to
    the text the child process printed. *)
Lemma read_reaches_parse (self : GpuZone) (w : World) (index : Z)
    (last : float) (gid : Z) (paths : list string) (r : CompletedProcess) :
  consistent self -> 0 <= index < Z.of_nat (length (gpu_device_ids self)) ->
  temp_retrieved self !! Z.to_nat index = Some last ->
  PrimFloat.leb (polling (base self)) (monotonic w - last)%float = true ->
  gpu_device_ids self !! Z.to_nat index = Some gid ->
  glob w (hwmon_pattern gid) = paths -> paths <> [] ->
  run w ("grep" :: "." :: paths) = inr r ->
  _get_nth_temp w index self =
  let self1 :=
    with_temp_retrieved self (<[Z.to_nat index := monotonic w]> (temp_retrieved self)) in
  let io := [Glob (hwmon_pattern gid); Run ("grep" :: "." :: paths)] in
  match comprehension scaled_field (Py.splitlines (stdout r)) with
  | inl e => raised e self1 io
  | inr temps =>
      match Py.max temps with
      | None => raised ValueError self1 (io ++ [Print gid temps])
      | Some m =>
          {| result := inr m;
             after := with_gpu_temperature self1
                        (<[Z.to_nat index := m]> (gpu_temperature self));
             trace := io ++ [Print gid temps] |}
      end
  end.
Proof.
  intros [Htr Hgt] Hi Hlast Hleb Hgid Hglob Hpaths Hrun.
  rewrite get_nth_temp_cases.
  rewrite (getitem_valid _ _ _ _ Htr Hi Hlast), Hleb.
  rewrite (getitem_valid _ _ _ _ eq_refl Hi Hgid), Hglob.
  destruct paths as [|p ps]; [done|]. cbv zeta. rewrite Hrun.
  rewrite (setitem_valid _ _ _ _ Htr Hi).
  destruct (comprehension _ _) as [e|temps]; [done|].
  destruct (Py.max temps) as [m|]; [|done].
  by rewrite (setitem_valid _ _ _ _ Hgt Hi).
Qed.

(** C1: for a valid index whose polling interval has elapsed, when the
    sources resolve to [paths], [grep . paths] runs, and each line it prints
    holds a number [x] in its second [:]-field, so that the scaled readings
    are [temps = [x / 1000, ...]] (at least one): the read returns the
    maximum [m] of [temps] (an item of [temps] that no item exceeds), stores
    [temp_retrieved[index] = now] and [gpu_temperature[index] = m], and has
    resolved the sources, read all of them and printed the readings.  The
    run with the raw values 45000, 52000 and 38000, among the concrete runs
    below, returns 52.0. *)
Theorem acquisition_returns_maximum (self : GpuZone) (w : World) (index : Z)
    (last : float) (gid : Z) (paths : list string) (r : CompletedProcess)
    (temps : list float) :
  consistent self -> 0 <= index < Z.of_nat (length (gpu_device_ids self)) ->
  temp_retrieved self !! Z.to_nat index = Some last ->
  PrimFloat.leb (polling (base self)) (monotonic w - last)%float = true ->
  gpu_device_ids self !! Z.to_nat index = Some gid ->
  glob w (hwmon_pattern gid) = paths -> paths <> [] ->
  run w ("grep" :: "." :: paths) = inr r ->
  Forall2 (fun line t => exists raw x,
             Py.split ":" line !! 1%nat = Some raw /\ Py.float raw = Some x /\
             t = (x / 1000)%float)
    (Py.splitlines (stdout r)) temps ->
  temps <> [] ->
  exists m,
    Py.max temps = Some m /\ m ∈ temps /\
    (forall t, t ∈ temps -> PrimFloat.ltb m t = false) /\
    _get_nth_temp w index self =
    {| result := inr m;
       after := {| base := base self; gpu_device_ids := gpu_device_ids self;
                   gpu_temperature := <[Z.to_nat index := m]> (gpu_temperature self);
                   temp_retrieved :=
                     <[Z.to_nat index := monotonic w]> (temp_retrieved self) |};
       trace := [Glob (hwmon_pattern gid); Run ("grep" :: "." :: paths);
                 Print gid temps] |}.
Proof.
  intros Hc Hi Hlast Hleb Hgid Hglob Hpaths Hrun Hlines Htemps.
  destruct (PyFacts.max_is_Some temps Htemps) as [m Hm].
  destruct (PyFacts.max_spec temps m Hm) as [Hin Hmax].
  exists m. repeat split; try done.
  rewrite (read_reaches_parse self w index last gid paths r); try done.
  cbv zeta.
  replace (comprehension scaled_field (Py.splitlines (stdout r))) with
    (inr temps : exn + list float).
  - by rewrite Hm.
  - symmetry. apply comprehension_inr.
    eapply Forall2_impl; [exact Hlines|]. intros line t. by rewrite scaled_field_inr.
Qed.

(** C2: for a valid index, a read less than the polling interval after the
    cached timestamp returns the cached value, sends nothing to the outside
    and leaves the object as it was; so after a read that returned [v], a
    read of the same index within the polling interval returns [v] again,
    with no event and no change. *)
Theorem cached_within_polling_interval (self : GpuZone) (index : Z) :
  consistent self -> 0 <= index < Z.of_nat (length (gpu_device_ids self)) ->
  (forall w last,
     temp_retrieved self !! Z.to_nat index = Some last ->
     PrimFloat.ltb (monotonic w - last)%float (polling (base self)) = true ->
     exists v, gpu_temperature self !! Z.to_nat index = Some v /\
       _get_nth_temp w index self =
       {| result := inr v; after := self; trace := [] |}) /\
  (forall w1 w2 v last,
     let o1 := _get_nth_temp w1 index self in
     result o1 = inr v ->
     temp_retrieved (after o1) !! Z.to_nat index = Some last ->
     PrimFloat.ltb (monotonic w2 - last)%float (polling (base self)) = true ->
     _get_nth_temp w2 index (after o1) =
     {| result := inr v; after := after o1; trace := [] |}).
Proof.
  intros [Htr Hgt] Hi.
  assert (forall self' w last v,
    length (temp_retrieved self') = length (gpu_device_ids self) ->
    base self' = base self ->
    temp_retrieved self' !! Z.to_nat index = Some last ->
    PrimFloat.ltb (monotonic w - last)%float (polling (base self)) = true ->
    Py.getitem (gpu_temperature self') index = Some v ->
    _get_nth_temp w index self' = {| result := inr v; after := self'; trace := [] |})
    as Hcached.
  { intros self' w last v Hlen Hbase Hlast Hlt%ltb_not_leb Hv.
    rewrite get_nth_temp_cases.
    rewrite (getitem_valid _ _ _ _ Hlen Hi Hlast), Hbase, Hlt, Hv. done. }
  split.
  - intros w last Hlast Hlt.
    destruct (lookup_lt_is_Some_2 (gpu_temperature self) (Z.to_nat index))
      as [v Hv]; [lia|].
    exists v. split; [done|].
    eapply Hcached; eauto using getitem_valid.
  - intros w1 w2 v last o1 Hres Hlast Hlt.
    destruct (read_frame w1 index self) as (Hbase & _ & Hlen & _).
    apply (Hcached (after o1) w2 last v); try done.
    + unfold o1. by rewrite Hlen.
    + by apply read_result_cached.
Qed.


(** C4: for a valid index whose polling interval has elapsed, when no path
    matches the hardware-monitor pattern of the device, the read raises
    [FileNotFoundError] to its caller right after the file-name expansion
    and leaves both cache lists as they were. *)
Theorem missing_sensor_raises (self : GpuZone) (w : World) (index : Z)
    (last : float) (gid : Z) :
  consistent self -> 0 <= index < Z.of_nat (length (gpu_device_ids self)) ->
  temp_retrieved self !! Z.to_nat index = Some last ->
  PrimFloat.leb (polling (base self)) (monotonic w - last)%float = true ->
  gpu_device_ids self !! Z.to_nat index = Some gid ->
  glob w (hwmon_pattern gid) = [] ->
  _get_nth_temp w index self =
  {| result := inl FileNotFoundError; after := self;
     trace := [Glob (hwmon_pattern gid)] |}.
Proof.
  intros [Htr Hgt] Hi Hlast Hleb Hgid Hglob.
  rewrite get_nth_temp_cases.
  rewrite (getitem_valid _ _ _ _ Htr Hi Hlast), Hleb.
  by rewrite (getitem_valid _ _ _ _ eq_refl Hi Hgid), Hglob.
Qed.

(** C6, as the code has it: an index [N <= index] or [index < -N], for [N]
    configured devices, ends the read with [IndexError] before anything is
    sent to the outside and with the object unchanged; an index
    [-N <= index < 0] is Python's index from the end, and the read is the
    read of entry [index + N]. *)
Theorem out_of_range_index (self : GpuZone) (w : World) (index : Z) :
  consistent self ->
  let n := Z.of_nat (length (gpu_device_ids self)) in
  (index < - n \/ n <= index ->
   _get_nth_temp w index self =
   {| result := inl IndexError; after := self; trace := [] |}) /\
  (- n <= index < 0 ->
   _get_nth_temp w index self = _get_nth_temp w (index + n) self).
Proof.
  intros [Htr Hgt] n. split.
  - intros Hout. rewrite get_nth_temp_cases.
    replace (Py.getitem (temp_retrieved self) index) with (@None float); [done|].
    symmetry. apply PyFacts.getitem_outside. rewrite Htr. done.
  - intros Hneg.
    assert (forall A (l : list A), length l = length (gpu_device_ids self) ->
              Py.position (length l) index = Py.position (length l) (index + n))
      as Hpos.
    { intros A l Hl. unfold n. rewrite <- Hl. apply PyFacts.position_back. lia. }
    rewrite !get_nth_temp_cases. unfold Py.getitem, Py.setitem.
    rewrite <- (Hpos _ _ Htr), <- (Hpos _ _ Hgt), <- (Hpos _ _ eq_refl). done.
Qed.

(** C9: the per-line parse reads the second [:]-separated field of the line
    and divides it by 1000: for a line [a:b] it is [float(b) / 1000], and
    for [a:b:c] as well.  A line with no [:] raises [IndexError], whatever
    it holds.  So a read whose polling interval has elapsed and whose child
    process printed such a line raises and stores no temperature, and the
    exception is [IndexError] when the lines before it parse. *)
Theorem line_without_colon_raises :
  (forall line, Py.contains ":" line = false -> scaled_field line = inl IndexError) /\
  (forall a b, Py.contains ":" a = false -> Py.contains ":" b = false ->
     scaled_field (a +:+ ":" +:+ b) =
     (x ← or_raise ValueError (Py.float b); mret (x / 1000)%float) /\
     forall c, scaled_field (a +:+ ":" +:+ b +:+ ":" +:+ c) =
               (x ← or_raise ValueError (Py.float b); mret (x / 1000)%float)) /\
  (forall (self : GpuZone) (w : World) (index : Z) (last : float) (gid : Z)
          (paths : list string) (r : CompletedProcess) (pre post : list string)
          (line : string),
     consistent self -> 0 <= index < Z.of_nat (length (gpu_device_ids self)) ->
     temp_retrieved self !! Z.to_nat index = Some last ->
     PrimFloat.leb (polling (base self)) (monotonic w - last)%float = true ->
     gpu_device_ids self !! Z.to_nat index = Some gid ->
     glob w (hwmon_pattern gid) = paths -> paths <> [] ->
     run w ("grep" :: "." :: paths) = inr r ->
     Py.splitlines (stdout r) = (pre ++ line :: post)%list ->
     Py.contains ":" line = false ->
     let o := _get_nth_temp w index self in
     (exists e, result o = inl e) /\
     gpu_temperature (after o) = gpu_temperature self /\
     (Forall (fun l => exists t, scaled_field l = inr t) pre ->
      result o = inl IndexError)).
Proof.
  split; [exact scaled_field_no_colon|]. split.
  - intros a b Ha Hb.
    assert (forall rest, Py.getitem (Py.split ":" (a +:+ ":" +:+ rest)) 1
                         = head (Py.split ":" rest)) as Hfield.
    { intros rest. change (":" +:+ rest) with (String ":" rest).
      rewrite PyFacts.split_first by done.
      rewrite PyFacts.getitem_nonneg by done. by destruct (Py.split ":" rest). }
    split.
    + unfold scaled_field. rewrite Hfield, PyFacts.split_no_sep by done. done.
    + intros c. unfold scaled_field. rewrite Hfield.
      change (":" +:+ c) with (String ":" c).
      rewrite PyFacts.split_first by done. done.
  - intros self w index last gid paths r pre post line Hc Hi Hlast Hleb Hgid
      Hglob Hpaths Hrun Hlines Hline o.
    pose proof (scaled_field_no_colon line Hline) as Hfail.
    unfold o. rewrite (read_reaches_parse self w index last gid paths r) by done.
    cbv zeta. rewrite Hlines.
    destruct (comprehension_fails scaled_field (pre ++ line :: post) line
                IndexError) as [e He]; [| done |].
    { apply elem_of_app. right. by left. }
    split; [|split].
    + rewrite He. by exists e.
    + by rewrite He.
    + intros Hpre. by rewrite (comprehension_inl scaled_field pre post line IndexError).
Qed.


End GpuZoneFacts.

(** ** Concrete runs *)

Section Runs.
Import Sample.

(** Three sensors reading 45000, 52000 and 38000: the read returns 52.0. *)
Lemma acquisition_returns_maximum_witness :
  _get_nth_temp (three_sensors 100) 0 (fresh [0]) =
  {| result := inr 52%float;
     after := {| base := (2%float, 0); gpu_device_ids := [0];
                 gpu_temperature := [52%float];
                 temp_retrieved := [100%float] |};
     trace := [Glob (hwmon_pattern 0);
               Run ["grep"; "."; card0 "1"; card0 "2"; card0 "3"];
               Print 0 [45%float; 52%float; 38%float]] |}.
Proof.
  destruct (acquisition_returns_maximum (fresh [0]) (three_sensors 100) 0
              0%float 0 [card0 "1"; card0 "2"; card0 "3"]
              {| returncode := 0;
                 stdout := card0 "1" +:+ ":45000" +:+ nl +:+ card0 "2"
                           +:+ ":52000" +:+ nl +:+ card0 "3" +:+ ":38000" +:+ nl;
                 stderr := "" |}
              [45%float; 52%float; 38%float])
    as (m & Hm & _ & _ & Hread).
  - split; reflexivity.
  - vm_compute. split; [discriminate | reflexivity].
  - reflexivity.
  - vm_compute. reflexivity.
  - reflexivity.
  - vm_compute. reflexivity.
  - discriminate.
  - reflexivity.
  - replace (Py.splitlines _) with
      [card0 "1" +:+ ":45000"; card0 "2" +:+ ":52000"; card0 "3" +:+ ":38000"]
      by (vm_compute; reflexivity).
    constructor; [exists "45000", 45000%float; repeat split; vm_compute; reflexivity|].
    constructor; [exists "52000", 52000%float; repeat split; vm_compute; reflexivity|].
    constructor; [exists "38000", 38000%float; repeat split; vm_compute; reflexivity|].
    constructor.
  - discriminate.
  - rewrite Hread. vm_compute in Hm. injection Hm as <-. reflexivity.
Defined.

(** A second read 1.5 s after the first one returns the same 52.0 from the
    cache. *)
Lemma cached_within_polling_interval_witness :
  let o1 := _get_nth_temp (three_sensors 100) 0 (fresh [0]) in
  _get_nth_temp (three_sensors 101.5) 0 (after o1) =
  {| result := inr 52%float; after := after o1; trace := [] |}.
Proof.
  assert (consistent (fresh [0])) as Hc by (split; reflexivity).
  assert (0 <= 0 < Z.of_nat (length (gpu_device_ids (fresh [0])))) as Hi
    by (vm_compute; split; [discriminate | reflexivity]).
  apply (proj2 (cached_within_polling_interval (fresh [0]) 0 Hc Hi)
           (three_sensors 100) (three_sensors 101.5) 52%float 100%float);
    vm_compute; reflexivity.
Defined.



(** No sensor file: the read raises [FileNotFoundError]. *)
Lemma missing_sensor_raises_witness :
  _get_nth_temp (no_sensor 100) 0 (fresh [0]) =
  {| result := inl FileNotFoundError; after := fresh [0];
     trace := [Glob (hwmon_pattern 0)] |}.
Proof.
  apply (missing_sensor_raises (fresh [0]) (no_sensor 100) 0 0%float 0).
  - split; reflexivity.
  - vm_compute. split; [discriminate | reflexivity].
  - reflexivity.
  - vm_compute. reflexivity.
  - reflexivity.
  - vm_compute. reflexivity.
Defined.

(** [gpu_device_ids=0, 101] is rejected. *)
Lemma init_validates_ids_witness :
  __init__ (0 : Z) tt (config_ids "0, 101") = inl ValueError.
Proof.
  pose proof (init_validates_ids (H := package) 0 tt (config_ids "0, 101")
                {[ "gpu_device_ids" := "0, 101" ]}) as Hw.
  cbv zeta in Hw. apply Hw.
  - vm_compute. reflexivity.
  - exists " 101". split.
    + vm_compute. right. left.
    + right. exists 101. split; [vm_compute; reflexivity | lia].
Defined.

(** Index 2 of a zone of two devices raises [IndexError]. *)
Lemma out_of_range_index_witness :
  _get_nth_temp (no_sensor 101) 2 polled =
  {| result := inl IndexError; after := polled; trace := [] |}.
Proof.
  assert (consistent polled) as Hc by (split; reflexivity).
  pose proof (out_of_range_index polled (no_sensor 101) 2 Hc) as Hw.
  cbv zeta in Hw. destruct Hw as [Hw _]. apply Hw. right. vm_compute. discriminate.
Defined.

(** The counterexample to C6 as written: index -1 is outside [0, 2) and the
    read returns the cached value of entry 1. *)
Lemma negative_index_reads_from_the_end :
  ~ (0 <= -1 < Z.of_nat (length (gpu_device_ids polled))) /\
  _get_nth_temp (no_sensor 101) (-1) polled =
  {| result := inr 63%float; after := polled; trace := [] |}.
Proof. split; [lia | vm_compute; reflexivity]. Qed.

(** [gpu_device_ids=0,0] builds a zone with the ids 0 and 0. *)
Lemma init_ids_in_range_witness :
  Forall (fun gid => 0 <= gid <= 100) (gpu_device_ids (fresh [0; 0])) /\
  exists s, config_ids "0,0" !! "GPU zone" = Some s /\
    Forall2 (fun t gid => Py.int t = Some gid)
      (tokens (normalized_ids s)) (gpu_device_ids (fresh [0; 0])).
Proof.
  apply (init_ids_in_range (H := package) 0 tt (config_ids "0,0") (fresh [0; 0]) []).
  vm_compute. reflexivity.
Defined.

(** The counterexample to C7 as written: construction succeeds with a
    repeated id. *)
Lemma duplicate_ids_accepted :
  __init__ (0 : Z) tt (config_ids "0,0") = inr (fresh [0; 0], []) /\
  gpu_device_ids (fresh [0; 0]) = [0; 0] /\
  ~ NoDup (gpu_device_ids (fresh [0; 0])).
Proof.
  split; [vm_compute; reflexivity|]. split; [reflexivity|].
  intros Hnd. apply NoDup_cons in Hnd as [Hnotin _]. apply Hnotin. left.
Qed.


(** One sensor file: [grep] prints the bare number and the read raises
    [IndexError]. *)
Lemma line_without_colon_raises_witness :
  result (_get_nth_temp (one_sensor 100) 0 (fresh [0])) = inl IndexError.
Proof.
  apply (proj2 (proj2 line_without_colon_raises) (fresh [0]) (one_sensor 100) 0
           0%float 0 [card0 "1"]
           {| returncode := 0; stdout := "60000" +:+ nl; stderr := "" |}
           [] [] "60000").
  - split; reflexivity.
  - vm_compute. split; [discriminate | reflexivity].
  - reflexivity.
  - vm_compute. reflexivity.
  - reflexivity.
  - vm_compute. reflexivity.
  - discriminate.
  - reflexivity.
  - vm_compute. reflexivity.
  - reflexivity.
  - constructor.
Defined.


End Runs.

(** * Further properties *)

(** ** Facts on joined tokens *)

Module JoinFacts.

Lemma space_isspace (c : ascii) : Ascii.eqb c " " = true -> Py.isspace c = true.
Proof. by intros ->%Ascii.eqb_eq. Qed.

Lemma plain_cons (c : ascii) (r : string) :
  plain (String c r) = true ->
  Py.isspace c = false /\ Ascii.eqb c "," = false /\ Ascii.eqb c " " = false /\
  plain r = true.
Proof.
  simpl. intros [[Hs Hc]%andb_prop Hr]%andb_prop.
  apply negb_true_iff in Hs, Hc. repeat split; try done.
  destruct (Ascii.eqb c " ") eqn:E; [|done]. apply space_isspace in E. congruence.
Qed.

Lemma contains_app (c : ascii) (a b : string) :
  Py.contains c (a +:+ b) = Py.contains c a || Py.contains c b.
Proof.
  induction a as [|x a IH]; [done|].
  change (String x a +:+ b) with (String x (a +:+ b)). simpl.
  by rewrite IH, orb_assoc.
Qed.

Lemma plain_no_sep (t : string) :
  plain t = true -> Py.contains "," t = false /\ Py.contains " " t = false.
Proof.
  induction t as [|c t IH]; [done|].
  intros (_ & Hc & Hs & Ht)%plain_cons. simpl. rewrite Hc, Hs. by apply IH.
Qed.

Lemma lstrip_word (t r : string) :
  plain t = true -> t <> "" -> Py.lstrip (t +:+ r) = t +:+ r.
Proof.
  destruct t as [|c t]; [done|]. intros (Hs & _)%plain_cons _.
  change (String c t +:+ r) with (String c (t +:+ r)). simpl. by rewrite Hs.
Qed.

Lemma rstrip_word (t : string) :
  plain t = true -> t <> "" -> Py.rstrip t = t.
Proof.
  induction t as [|c t IH]; [done|]. intros (Hs & _ & _ & Ht)%plain_cons _.
  simpl. destruct t as [|c' t].
  - simpl. by rewrite Hs.
  - rewrite IH by done. done.
Qed.

Lemma rstrip_app (a b : string) :
  Py.rstrip b <> "" -> Py.rstrip (a +:+ b) = a +:+ Py.rstrip b.
Proof.
  intros Hb. induction a as [|c a IH]; [done|].
  change (String c a +:+ b) with (String c (a +:+ b)).
  change (String c a +:+ Py.rstrip b) with (String c (a +:+ Py.rstrip b)).
  cbn [Py.rstrip]. rewrite IH. destruct (a +:+ Py.rstrip b) eqn:E; [|done].
  destruct a; simpl in E; [by destruct Hb | discriminate].
Qed.

Lemma squeeze_plain_app (t r : string) :
  plain t = true ->
  Py.squeeze_spaces (t +:+ r) = t +:+ Py.squeeze_spaces r.
Proof.
  induction t as [|c t IH]; [done|]. intros (_ & _ & Hs & Ht)%plain_cons.
  change (String c t +:+ r) with (String c (t +:+ r)).
  change (String c t +:+ Py.squeeze_spaces r)
    with (String c (t +:+ Py.squeeze_spaces r)).
  cbn [Py.squeeze_spaces]. rewrite Hs. by rewrite IH.
Qed.

Lemma squeeze_space_word (t r : string) :
  plain t = true -> t <> "" ->
  Py.squeeze_spaces (" " +:+ t +:+ r) = " " +:+ Py.squeeze_spaces (t +:+ r).
Proof.
  destruct t as [|c t]; [done|]. intros (_ & _ & Hs & _)%plain_cons _.
  change (String c t +:+ r) with (String c (t +:+ r)).
  change (" " +:+ String c (t +:+ r)) with (String " " (String c (t +:+ r))).
  cbn [Py.squeeze_spaces]. rewrite !Hs. reflexivity.
Qed.

Lemma squeeze_word (t : string) : plain t = true -> Py.squeeze_spaces t = t.
Proof.
  induction t as [|c t IH]; [done|]. intros (_ & _ & Hs & Ht)%plain_cons.
  cbn [Py.squeeze_spaces]. rewrite Hs. by rewrite IH.
Qed.

Lemma squeeze_space_head (c : ascii) (r : string) :
  Ascii.eqb c " " = false ->
  Py.squeeze_spaces (String " " (String c r)) =
  String " " (Py.squeeze_spaces (String c r)).
Proof. intros Hs. cbn [Py.squeeze_spaces]. rewrite !Hs. reflexivity. Qed.

(** Tokens joined by one comma or by one space. *)
Section Joined.
Variable c : ascii.
Hypothesis Hc : c = ","%char \/ c = " "%char.

Lemma joined_cons (t t' : string) (l : list string) :
  joined c (t :: t' :: l) = t +:+ String c (joined c (t' :: l)).
Proof. reflexivity. Qed.

Lemma joined_head (l : list string) :
  words l -> l <> [] ->
  exists x r, joined c l = String x r /\ Py.isspace x = false /\
              Ascii.eqb x " " = false.
Proof.
  intros Hl Hne. destruct Hl as [|t l' [Hp Ht] _]; [done|].
  destruct t as [|x t]; [done|]. apply plain_cons in Hp as (Hs & _ & Hsp & _).
  destruct l' as [|t' l'].
  - by exists x, t.
  - rewrite joined_cons. by exists x, (t +:+ String c (joined c (t' :: l'))).
Qed.

Lemma lstrip_joined (l : list string) :
  words l -> l <> [] -> Py.lstrip (joined c l) = joined c l.
Proof.
  intros Hl Hne. destruct (joined_head l Hl Hne) as (x & r & -> & Hs & _).
  simpl. by rewrite Hs.
Qed.

Lemma rstrip_joined (l : list string) :
  words l -> l <> [] -> Py.rstrip (joined c l) = joined c l /\ joined c l <> "".
Proof.
  induction 1 as [|t l [Hp Ht] Hl IH]; [done|]. intros _.
  destruct l as [|t' l].
  - split; [by apply rstrip_word | done].
  - destruct IH as [IH Hne]; [done|]. rewrite joined_cons. split.
    + rewrite rstrip_app.
      * f_equal. change (String c (joined c (t' :: l)))
          with (String c "" +:+ joined c (t' :: l)).
        rewrite rstrip_app; by rewrite IH.
      * change (String c (joined c (t' :: l)))
          with (String c "" +:+ joined c (t' :: l)).
        rewrite rstrip_app; rewrite IH; [|done].
        by destruct (joined c (t' :: l)).
    + by destruct t.
Qed.

Lemma squeeze_joined (l : list string) :
  words l -> l <> [] -> Py.squeeze_spaces (joined c l) = joined c l.
Proof.
  induction 1 as [|t l [Hp Ht] Hl IH]; [done|]. intros _.
  destruct l as [|t' l]; [by apply squeeze_word|].
  rewrite joined_cons, squeeze_plain_app by done. f_equal.
  pose proof (joined_head (t' :: l) Hl) as Hhead.
  destruct Hc as [-> | ->].
  - cbn [Py.squeeze_spaces]. simpl Ascii.eqb. cbv iota. by rewrite IH.
  - destruct Hhead as (x & r & Hj & _ & Hs); [done|].
    rewrite Hj in IH |- *. rewrite squeeze_space_head by done. by rewrite IH.
Qed.

Lemma split_joined (l : list string) :
  words l -> l <> [] -> Py.split c (joined c l) = l.
Proof.
  assert (forall t, plain t = true -> Py.contains c t = false) as Hno.
  { intros t [? ?]%plain_no_sep. by destruct Hc as [-> | ->]. }
  induction 1 as [|t l [Hp Ht] Hl IH]; [done|]. intros _.
  destruct l as [|t' l].
  - apply PyFacts.split_no_sep. by apply Hno.
  - rewrite joined_cons, PyFacts.split_first by by apply Hno.
    by rewrite IH.
Qed.

Lemma contains_joined (x : ascii) (l : list string) :
  Py.contains x (String c "") = false ->
  (forall t, t ∈ l -> Py.contains x t = false) ->
  Py.contains x (joined c l) = false.
Proof.
  intros Hx. induction l as [|t l IH]; intros Hl; [done|].
  destruct l as [|t' l].
  - apply Hl. by left.
  - rewrite joined_cons, contains_app.
    change (String c (joined c (t' :: l))) with (String c "" +:+ joined c (t' :: l)).
    rewrite contains_app, Hx, (Hl t) by by left. simpl.
    apply IH. intros t0 Ht0. apply Hl. by right.
Qed.

(** The string is as the constructor normalizes it, and its tokens are the
    words joined. *)
Lemma tokens_joined (l : list string) :
  words l -> l <> [] ->
  Py.squeeze_spaces (Py.strip (joined c l)) = joined c l /\ tokens (joined c l) = l.
Proof.
  intros Hl Hne. split.
  - unfold Py.strip. rewrite lstrip_joined by done.
    destruct (rstrip_joined l Hl Hne) as [-> _]. by apply squeeze_joined.
  - unfold tokens.
    assert (forall t, t ∈ l -> Py.contains "," t = false /\ Py.contains " " t = false)
      as Hno.
    { intros t Ht. apply plain_no_sep.
      unfold words in Hl. rewrite Forall_forall in Hl. by apply Hl. }
    pose proof (split_joined l Hl Hne) as Hsplit.
    pose proof (contains_joined "," l) as Hcomma.
    pose proof joined_cons as Hcons.
    unfold joined in *. destruct Hc as [-> | ->].
    + destruct l as [|t [|t' l]]; [done | |].
      * destruct (Hno t) as [Hcomma' Hspace]; [by left|].
        simpl String.concat. rewrite Hcomma'.
        by apply PyFacts.split_no_sep.
      * replace (Py.contains "," (String.concat "," (t :: t' :: l))) with true;
          [done|].
        rewrite Hcons, contains_app. simpl. by rewrite orb_true_r.
    + rewrite Hcomma; [done | done |]. intros t Ht. by apply Hno.
Qed.

End Joined.

End JoinFacts.


Section ReadProperties.
Context `{Package}.

(** The cases of a read, as a relation between the object before and the
    outcome. *)
Lemma setitem_insert {A} (l l' : list A) (i : Z) (x : A) :
  Py.setitem l i x = Some l' ->
  exists k, Py.position (length l) i = Some k /\ l' = <[k := x]> l.
Proof.
  unfold Py.setitem. destruct (Py.position (length l) i) as [k|]; simpl; [|done].
  intros [= <-]. eauto.
Qed.

(** X1: whatever a read does, it leaves the base object, the device list and
    the lengths of both cache lists as they were, so the cache lists stay as
    long as the device list. *)
Theorem read_keeps_shape (self : GpuZone) (w : World) (index : Z) :
  let self' := after (_get_nth_temp w index self) in
  base self' = base self /\
  gpu_device_ids self' = gpu_device_ids self /\
  length (temp_retrieved self') = length (temp_retrieved self) /\
  length (gpu_temperature self') = length (gpu_temperature self) /\
  (consistent self -> consistent self').
Proof.
  intros self'. destruct (read_frame w index self) as (Hb & Hi & Htr & Hgt).
  repeat split; try done; apply read_consistent; done.
Qed.

Lemma read_entries_elsewhere (self : GpuZone) (w : World) (index : Z) (k : nat) :
  consistent self ->
  Py.position (length (gpu_device_ids self)) index <> Some k ->
  let self' := after (_get_nth_temp w index self) in
  temp_retrieved self' !! k = temp_retrieved self !! k /\
  gpu_temperature self' !! k = gpu_temperature self !! k.
Proof.
  intros [Htr Hgt] Hk self'. unfold self'.
  rewrite get_nth_temp_cases. cbv zeta.
  repeat case_match; simpl; try done;
    repeat match goal with
           | Hs : Py.setitem _ _ _ = Some _ |- _ =>
               apply setitem_insert in Hs as (? & ? & ->)
           end;
    split; try done; apply list_lookup_insert_ne; congruence.
Qed.

(** X2: a read for [index] changes no cache entry but the one [index]
    addresses. *)
Theorem read_touches_one_entry (self : GpuZone) (w : World) (index : Z) (k : nat) :
  consistent self ->
  Py.position (length (gpu_device_ids self)) index <> Some k ->
  let self' := after (_get_nth_temp w index self) in
  temp_retrieved self' !! k = temp_retrieved self !! k /\
  gpu_temperature self' !! k = gpu_temperature self !! k.
Proof. apply read_entries_elsewhere. Qed.

(** X3: when [subprocess.run] raises, the read raises the same exception
    after the file-name expansion and the start of the process, and the
    object is unchanged. *)
Theorem subprocess_failure_propagates (self : GpuZone) (w : World) (index : Z)
    (last : float) (gid : Z) (paths : list string) (e : exn) :
  consistent self -> 0 <= index < Z.of_nat (length (gpu_device_ids self)) ->
  temp_retrieved self !! Z.to_nat index = Some last ->
  PrimFloat.leb (polling (base self)) (monotonic w - last)%float = true ->
  gpu_device_ids self !! Z.to_nat index = Some gid ->
  glob w (hwmon_pattern gid) = paths -> paths <> [] ->
  run w ("grep" :: "." :: paths) = inl e ->
  _get_nth_temp w index self =
  {| result := inl e; after := self;
     trace := [Glob (hwmon_pattern gid); Run ("grep" :: "." :: paths)] |}.
Proof.
  intros [Htr Hgt] Hi Hlast Hleb Hgid Hglob Hpaths Hrun.
  rewrite get_nth_temp_cases.
  rewrite (getitem_valid _ _ _ _ Htr Hi Hlast), Hleb.
  rewrite (getitem_valid _ _ _ _ eq_refl Hi Hgid), Hglob.
  destruct paths as [|p ps]; [done|]. cbv zeta. by rewrite Hrun.
Qed.

(** X4: when the child process prints nothing, the read raises the
    [ValueError] of [max] on an empty list, after it has printed the empty
    list of readings; the value is kept and the timestamp is the time of this
    read. *)
Theorem empty_output_raises (self : GpuZone) (w : World) (index : Z)
    (last : float) (gid : Z) (paths : list string) (r : CompletedProcess) :
  consistent self -> 0 <= index < Z.of_nat (length (gpu_device_ids self)) ->
  temp_retrieved self !! Z.to_nat index = Some last ->
  PrimFloat.leb (polling (base self)) (monotonic w - last)%float = true ->
  gpu_device_ids self !! Z.to_nat index = Some gid ->
  glob w (hwmon_pattern gid) = paths -> paths <> [] ->
  run w ("grep" :: "." :: paths) = inr r ->
  stdout r = "" ->
  _get_nth_temp w index self =
  {| result := inl ValueError;
     after := {| base := base self; gpu_device_ids := gpu_device_ids self;
                 gpu_temperature := gpu_temperature self;
                 temp_retrieved :=
                   <[Z.to_nat index := monotonic w]> (temp_retrieved self) |};
     trace := [Glob (hwmon_pattern gid); Run ("grep" :: "." :: paths);
               Print gid []] |}.
Proof.
  intros Hc Hi Hlast Hleb Hgid Hglob Hpaths Hrun Hout.
  rewrite (read_reaches_parse self w index last gid paths r) by done.
  by rewrite Hout.
Qed.

(** X5: after a read that failed on a line that does not parse, a read of the
    same index less than the polling interval later raises nothing and
    goes nowhere: it returns the value cached before the failure. *)
Theorem stale_value_after_parse_failure (self : GpuZone) (w w2 : World)
    (index : Z) (last v : float) (gid : Z) (paths : list string)
    (r : CompletedProcess) (line : string) (e0 : exn) :
  consistent self -> 0 <= index < Z.of_nat (length (gpu_device_ids self)) ->
  temp_retrieved self !! Z.to_nat index = Some last ->
  PrimFloat.leb (polling (base self)) (monotonic w - last)%float = true ->
  gpu_device_ids self !! Z.to_nat index = Some gid ->
  glob w (hwmon_pattern gid) = paths -> paths <> [] ->
  run w ("grep" :: "." :: paths) = inr r ->
  line ∈ Py.splitlines (stdout r) -> scaled_field line = inl e0 ->
  gpu_temperature self !! Z.to_nat index = Some v ->
  PrimFloat.ltb (monotonic w2 - monotonic w)%float (polling (base self)) = true ->
  let o1 := _get_nth_temp w index self in
  (exists e, result o1 = inl e) /\
  _get_nth_temp w2 index (after o1) =
  {| result := inr v; after := after o1; trace := [] |}.
Proof.
  intros Hc Hi Hlast Hleb Hgid Hglob Hpaths Hrun Hline Hfail Hv Hlt o1.
  destruct (comprehension_fails scaled_field _ _ _ Hline Hfail) as [e He].
  unfold o1. rewrite (read_reaches_parse self w index last gid paths r) by done.
  cbv zeta. rewrite He. unfold raised, with_temp_retrieved. cbn [result after].
  split; [by exists e|]. destruct Hc as [Htr Hgt].
  rewrite get_nth_temp_cases. cbn [temp_retrieved gpu_temperature base].
  rewrite (getitem_valid _ (gpu_device_ids self) index (monotonic w)).
  - rewrite (ltb_not_leb _ _ Hlt).
    by rewrite (getitem_valid _ _ _ _ Hgt Hi Hv).
  - by rewrite length_insert.
  - done.
  - apply list_lookup_insert_eq. lia.
Qed.

(** X6: a read that returns has either gone nowhere, changed nothing and
    returned the cached entry, or it has expanded the pattern of the device,
    run [grep . paths] on the non-empty list of paths found, parsed every
    line printed, printed the readings and returned the maximum, which is one
    of the readings. *)
Theorem returned_value_cached_or_fresh (self : GpuZone) (w : World) (index : Z)
    (v : float) :
  result (_get_nth_temp w index self) = inr v ->
  (trace (_get_nth_temp w index self) = [] /\
   after (_get_nth_temp w index self) = self /\
   Py.getitem (gpu_temperature self) index = Some v) \/
  (exists gid r temps,
     Py.getitem (gpu_device_ids self) index = Some gid /\
     glob w (hwmon_pattern gid) <> [] /\
     run w ("grep" :: "." :: glob w (hwmon_pattern gid)) = inr r /\
     comprehension scaled_field (Py.splitlines (stdout r)) = inr temps /\
     Py.max temps = Some v /\ v ∈ temps /\
     trace (_get_nth_temp w index self) =
     [Glob (hwmon_pattern gid); Run ("grep" :: "." :: glob w (hwmon_pattern gid));
      Print gid temps]).
Proof.
  rewrite get_nth_temp_cases.
  destruct (Py.getitem (temp_retrieved self) index) as [last|]; [|done].
  destruct (PrimFloat.leb _ _).
  - destruct (Py.getitem (gpu_device_ids self) index) as [gid|]; [|done].
    destruct (glob w (hwmon_pattern gid)) as [|p ps] eqn:Hglob; [done|].
    cbv zeta. destruct (run w _) as [e|r] eqn:Hrun; [done|].
    destruct (Py.setitem (temp_retrieved self) index _) as [tr|]; [|done].
    destruct (comprehension _ _) as [e|temps] eqn:Htemps; [done|].
    destruct (Py.max temps) as [m|] eqn:Hm; [|done].
    destruct (Py.setitem (gpu_temperature self) index m) as [gt|]; [|done].
    cbn [result trace]. intros [= <-]. right. exists gid, r, temps.
    rewrite Hglob. repeat split; try done.
    apply (proj1 (PyFacts.max_spec _ _ Hm)).
  - cbn [result trace after]. left. repeat split.
    destruct (Py.getitem (gpu_temperature self) index); simpl in *; congruence.
Qed.

(** X7: every read sends one of four sequences of events: nothing; the
    expansion of the pattern of the device at [index]; that and one process,
    [grep .] on the paths found, which are not empty; or those and one
    printed line.  So a read starts at most one process and none without a
    sensor file. *)
Theorem read_trace_shape (self : GpuZone) (w : World) (index : Z) :
  let t := trace (_get_nth_temp w index self) in
  t = [] \/
  exists gid,
    Py.getitem (gpu_device_ids self) index = Some gid /\
    let paths := glob w (hwmon_pattern gid) in
    (t = [Glob (hwmon_pattern gid)] /\ paths = []) \/
    (paths <> [] /\
     (t = [Glob (hwmon_pattern gid); Run ("grep" :: "." :: paths)] \/
      exists temps,
        t = [Glob (hwmon_pattern gid); Run ("grep" :: "." :: paths);
             Print gid temps])).
Proof.
  rewrite get_nth_temp_cases. cbv zeta.
  destruct (Py.getitem (temp_retrieved self) index) as [last|]; [|by left].
  destruct (PrimFloat.leb _ _); [|by left].
  destruct (Py.getitem (gpu_device_ids self) index) as [gid|]; [|by left].
  right. exists gid. split; [done|].
  destruct (glob w (hwmon_pattern gid)) as [|p ps]; [by left|].
  right. split; [done|].
  repeat case_match; simpl; eauto.
Qed.

(** X8: a read raises nothing but [IndexError], [FileNotFoundError],
    [ValueError] and what [subprocess.run] raised. *)
Theorem read_exceptions (self : GpuZone) (w : World) (index : Z) (e : exn) :
  result (_get_nth_temp w index self) = inl e ->
  e = IndexError \/ e = FileNotFoundError \/ e = ValueError \/
  exists args, run w args = inl e.
Proof.
  assert (forall l e', comprehension scaled_field l = inl e' ->
                       e' = IndexError \/ e' = ValueError) as Hparse.
  { induction l as [|x l IH]; intros e' Hc; [done|].
    simpl in Hc. unfold mbind, result_bind in Hc.
    destruct (scaled_field x) as [e''|t] eqn:Hx.
    - injection Hc as <-. by apply scaled_field_inl in Hx.
    - destruct (comprehension scaled_field l) as [e''|]; [|done].
      injection Hc as <-. by apply IH. }
  rewrite get_nth_temp_cases. cbv zeta.
  destruct (Py.getitem (temp_retrieved self) index) as [last|];
    [|intros [= <-]; auto].
  destruct (PrimFloat.leb _ _).
  - destruct (Py.getitem (gpu_device_ids self) index) as [gid|];
      [|intros [= <-]; auto].
    destruct (glob w (hwmon_pattern gid)) as [|p ps]; [intros [= <-]; auto|].
    destruct (run w _) as [e'|r] eqn:Hrun; [intros [= <-]; eauto 6|].
    destruct (Py.setitem (temp_retrieved self) index _) as [tr|];
      [|intros [= <-]; auto].
    destruct (comprehension _ _) as [e'|temps] eqn:Hc.
    { intros [= <-]. destruct (Hparse _ _ Hc) as [-> | ->]; auto. }
    destruct (Py.max temps) as [m|]; [|intros [= <-]; auto].
    destruct (Py.setitem (gpu_temperature self) index m) as [gt|];
      [done|intros [= <-]; auto].
  - cbn [result].
    destruct (Py.getitem (gpu_temperature self) index); simpl; [done|].
    intros [= <-]; auto.
Qed.

(** X9: a read for another index in between does not disturb an index: the
    read of [i] after a read of [j], for valid [i <> j], returns or raises
    what it would have without the read of [j], and sends the same events. *)
Theorem reads_of_other_index_independent (self : GpuZone) (w w' : World)
    (i j : Z) :
  consistent self ->
  0 <= i < Z.of_nat (length (gpu_device_ids self)) ->
  0 <= j < Z.of_nat (length (gpu_device_ids self)) ->
  i <> j ->
  let self' := after (_get_nth_temp w j self) in
  result (_get_nth_temp w' i self') = result (_get_nth_temp w' i self) /\
  trace (_get_nth_temp w' i self') = trace (_get_nth_temp w' i self).
Proof.
  intros Hc Hi Hj Hij self'.
  destruct (read_frame w j self) as (Hb & Hids & Hltr & Hlgt).
  fold self' in Hb, Hids, Hltr, Hlgt.
  destruct (read_entries_elsewhere self w j (Z.to_nat i) Hc) as [Htr Hgt].
  { rewrite PyFacts.position_front by done. intros [= Heq]. lia. }
  fold self' in Htr, Hgt. destruct Hc as [Hctr Hcgt].
  assert (Py.getitem (temp_retrieved self') i = Py.getitem (temp_retrieved self) i) as E1.
  { rewrite !PyFacts.getitem_nonneg by lia. done. }
  assert (Py.getitem (gpu_temperature self') i = Py.getitem (gpu_temperature self) i) as E2.
  { rewrite !PyFacts.getitem_nonneg by lia. done. }
  assert (forall x, Py.setitem (temp_retrieved self') i x
                    = Some (<[Z.to_nat i := x]> (temp_retrieved self'))) as E3.
  { intros x. unfold Py.setitem. rewrite PyFacts.position_front by lia. done. }
  assert (forall x, Py.setitem (temp_retrieved self) i x
                    = Some (<[Z.to_nat i := x]> (temp_retrieved self))) as E4.
  { intros x. unfold Py.setitem. rewrite PyFacts.position_front by lia. done. }
  assert (forall x, Py.setitem (gpu_temperature self') i x
                    = Some (<[Z.to_nat i := x]> (gpu_temperature self'))) as E5.
  { intros x. unfold Py.setitem. rewrite PyFacts.position_front by lia. done. }
  assert (forall x, Py.setitem (gpu_temperature self) i x
                    = Some (<[Z.to_nat i := x]> (gpu_temperature self))) as E6.
  { intros x. unfold Py.setitem. rewrite PyFacts.position_front by lia. done. }
  rewrite !get_nth_temp_cases. rewrite E1, E2, Hb, Hids, E3, E4. cbv zeta.
  destruct (Py.getitem (temp_retrieved self) i) as [last|]; [|done].
  destruct (PrimFloat.leb _ _); [|done].
  destruct (Py.getitem (gpu_device_ids self) i) as [gid|]; [|done].
  destruct (glob w' (hwmon_pattern gid)) as [|p ps]; [done|].
  destruct (run w' _) as [e|r]; [done|].
  destruct (comprehension _ _) as [e|temps]; [done|].
  destruct (Py.max temps) as [m|]; [|done].
  by rewrite E5, E6.
Qed.

(** X10: once a read has stored a reading at time [t1], a read of the same
    index at a time [t2] with [polling <= t2 - t1] goes to the sensors
    again. *)
Theorem reacquires_after_interval (self : GpuZone) (w1 w2 : World) (index : Z)
    (v : float) :
  consistent self -> 0 <= index < Z.of_nat (length (gpu_device_ids self)) ->
  let o1 := _get_nth_temp w1 index self in
  result o1 = inr v -> trace o1 <> [] ->
  PrimFloat.leb (polling (base self)) (monotonic w2 - monotonic w1)%float = true ->
  exists gid rest,
    gpu_device_ids self !! Z.to_nat index = Some gid /\
    trace (_get_nth_temp w2 index (after o1)) = Glob (hwmon_pattern gid) :: rest.
Proof.
  intros [Htr Hgt] Hi o1 Hres Htrace Hleb.
  destruct (lookup_lt_is_Some_2 (gpu_device_ids self) (Z.to_nat index))
    as [gid Hgid]; [lia|].
  exists gid.
  assert (temp_retrieved (after o1) !! Z.to_nat index = Some (monotonic w1) /\
          base (after o1) = base self /\
          gpu_device_ids (after o1) = gpu_device_ids self) as (Hlast & Hb & Hids).
  { revert Hres Htrace. unfold o1. rewrite get_nth_temp_cases. cbv zeta.
    rewrite (setitem_valid _ _ _ _ Htr Hi).
    repeat case_match; simpl; try done. intros _ _.
    repeat split. apply list_lookup_insert_eq. lia. }
  destruct (read_frame w1 index self) as (_ & _ & Hlen & _). fold o1 in Hlen.
  rewrite get_nth_temp_cases.
  rewrite (getitem_valid _ (gpu_device_ids self) index (monotonic w1));
    [| congruence | done | done].
  rewrite Hb, Hleb, Hids, (getitem_valid _ _ _ _ eq_refl Hi Hgid). cbv zeta.
  repeat case_match; simpl; eauto.
Qed.

Lemma list_ascii_app (a b : string) :
  list_ascii_of_string (a +:+ b) =
  (list_ascii_of_string a ++ list_ascii_of_string b)%list.
Proof. induction a as [|x a IH]; simpl; [done|]. by rewrite <- IH. Qed.

(** X11: the patterns of two device ids are equal only if the ids are. *)
Theorem hwmon_pattern_inj (gid1 gid2 : Z) :
  hwmon_pattern gid1 = hwmon_pattern gid2 -> gid1 = gid2.
Proof.
  unfold hwmon_pattern. intros Heq%(f_equal list_ascii_of_string).
  rewrite !list_ascii_app in Heq.
  apply app_inv_head, app_inv_tail in Heq.
  apply (inj pretty). rewrite <- (string_of_list_ascii_of_string (pretty gid1)).
  by rewrite Heq, string_of_list_ascii_of_string.
Qed.

End ReadProperties.


Section InitProperties.
Context `{Package}.

(** The constructor with its section found, one case per step. *)
Lemma init_cases (log0 : Log) (ipmi : Ipmi) (config : ConfigParser)
    (s : SectionProxy) :
  config !! CS_GPU_ZONE = Some s ->
  __init__ log0 ipmi config =
  match comprehension (fun t => or_raise ValueError (Py.int t))
          (tokens (normalized_ids s)) with
  | inl e => inl e
  | inr ids =>
  match check_ids ids with
  | inl e => inl e
  | inr _ =>
  match Config.getint s CV_GPU_ZONE_TEMP_CALC CALC_AVG with
  | inl e => inl e
  | inr temp_calc =>
  match Config.getint s CV_GPU_ZONE_STEPS 5 with
  | inl e => inl e
  | inr steps =>
  match Config.getfloat s CV_GPU_ZONE_SENSITIVITY 2%float with
  | inl e => inl e
  | inr sensitivity =>
  match Config.getfloat s CV_GPU_ZONE_POLLING 2%float with
  | inl e => inl e
  | inr polling0 =>
  match Config.getfloat s CV_GPU_ZONE_MIN_TEMP 40%float with
  | inl e => inl e
  | inr min_temp =>
  match Config.getfloat s CV_GPU_ZONE_MAX_TEMP 70%float with
  | inl e => inl e
  | inr max_temp =>
  match Config.getint s CV_GPU_ZONE_MIN_LEVEL 35 with
  | inl e => inl e
  | inr min_level =>
  match Config.getint s CV_GPU_ZONE_MAX_LEVEL 100 with
  | inl e => inl e
  | inr max_level =>
  match FanController_init log0 ipmi
          (Config.get s CV_GPU_IPMI_ZONE (pretty HD_ZONE)) CS_GPU_ZONE
          (Z.of_nat (length ids)) temp_calc steps sensitivity polling0
          min_temp max_temp min_level max_level with
  | inl e => inl e
  | inr b =>
      inr ({| base := b; gpu_device_ids := ids;
              gpu_temperature := replicate (length ids) 0%float;
              temp_retrieved := replicate (length ids) 0%float |},
           if LOG_CONFIG <=? log_level (log b)
           then [(LOG_CONFIG,
                  "   " +:+ CV_GPU_ZONE_GPU_IDS +:+ " = " +:+ repr_ids ids)]
           else [])
  end end end end end end end end end end end.
Proof.
  intros Hs. unfold __init__, Config.section, mbind, result_bind, mret, result_ret.
  rewrite Hs. reflexivity.
Qed.

Lemma getint_inl (s : SectionProxy) (o : string) (d : Z) (e : exn) :
  Config.getint s o d = inl e -> e = ValueError.
Proof.
  unfold Config.getint. destruct (s !! o) as [v|]; [|done].
  destruct (Py.int v); simpl; congruence.
Qed.

Lemma getfloat_inl (s : SectionProxy) (o : string) (d : float) (e : exn) :
  Config.getfloat s o d = inl e -> e = ValueError.
Proof.
  unfold Config.getfloat. destruct (s !! o) as [v|]; [|done].
  destruct (Py.float v); simpl; congruence.
Qed.

Lemma tokens_inl (s : SectionProxy) (e : exn) :
  comprehension (fun t => or_raise ValueError (Py.int t))
    (tokens (normalized_ids s)) = inl e -> e = ValueError.
Proof.
  apply comprehension_only. intros a e'. cbv beta.
  destruct (Py.int a); simpl; congruence.
Qed.

(** X12: without a section [GPU zone] the constructor raises [KeyError]. *)
Theorem init_missing_section (log0 : Log) (ipmi : Ipmi) (config : ConfigParser) :
  config !! "GPU zone" = None -> __init__ log0 ipmi config = inl KeyError.
Proof.
  intros Hs. unfold __init__, Config.section.
  change CS_GPU_ZONE with "GPU zone". by rewrite Hs.
Qed.


(** X14: an option [temp_calc], [steps], [min_level] or [max_level] that is no
    integer, or an option [sensitivity], [polling], [min_temp] or [max_temp]
    that is no number, makes the constructor raise [ValueError], and the
    constructor of the base class is not reached. *)
Theorem init_rejects_bad_option (log0 : Log) (ipmi : Ipmi) (config : ConfigParser)
    (s : SectionProxy) (o v : string) :
  config !! "GPU zone" = Some s ->
  s !! o = Some v ->
  (o ∈ ["temp_calc"; "steps"; "min_level"; "max_level"] /\ Py.int v = None) \/
  (o ∈ ["sensitivity"; "polling"; "min_temp"; "max_temp"] /\ Py.float v = None) ->
  __init__ log0 ipmi config = inl ValueError.
Proof.
  intros Hs Ho Hbad. rewrite (init_cases _ _ _ s Hs).
  assert (forall d, Py.int v = None -> Config.getint s o d = inl ValueError)
    as Hint by (intros d Hv; unfold Config.getint; by rewrite Ho, Hv).
  assert (forall d, Py.float v = None -> Config.getfloat s o d = inl ValueError)
    as Hfl by (intros d Hv; unfold Config.getfloat; by rewrite Ho, Hv).
  destruct Hbad as [[Hin Hv] | [Hin Hv]];
    repeat (apply elem_of_cons in Hin as [-> | Hin]);
    try (by apply elem_of_nil in Hin);
    first [ rewrite (Hint _ Hv) | rewrite (Hfl _ Hv) ];
    repeat match goal with
           | |- match ?r with inl _ => _ | inr _ => _ end = _ =>
               let E := fresh "E" in
               destruct r as [e|?] eqn:E; cbv beta iota;
               [ f_equal;
                 eauto using tokens_inl, check_ids_inl, getint_inl, getfloat_inl | ]
           end;
    done.
Qed.

Lemma ids_accepted (s : SectionProxy) (ids : list Z) :
  Forall2 (fun t gid => Py.int t = Some gid /\ 0 <= gid <= 100)
    (tokens (normalized_ids s)) ids ->
  comprehension (fun t => or_raise ValueError (Py.int t))
    (tokens (normalized_ids s)) = inr ids /\
  check_ids ids = inr tt.
Proof.
  intros Hall. split.
  - apply comprehension_inr. eapply Forall2_impl; [exact Hall|].
    intros t gid [-> _]. done.
  - apply check_ids_inr. clear -Hall.
    induction Hall as [|t gid ? ? [_ Hr]]; constructor; done.
Qed.

(** The decimal writing of an id in [0,100] is a token that reads back as
    the id. *)
Lemma pretty_id (z : Z) :
  0 <= z <= 100 ->
  plain (pretty z) = true /\ pretty z <> "" /\ Py.int (pretty z) = Some z.
Proof.
  intros Hz.
  assert (forallb (fun z => bool_decide (plain (pretty z) = true /\
                                         pretty z <> "" /\
                                         Py.int (pretty z) = Some z))
            (seqZ 0 101) = true) as Hall by (vm_compute; reflexivity).
  rewrite forallb_forall in Hall.
  eapply bool_decide_eq_true_1, Hall, list_elem_of_In, elem_of_seqZ. lia.
Qed.



(** X17: an option [gpu_device_ids] that is empty once stripped makes the
    constructor raise [ValueError]. *)
Theorem init_rejects_blank_ids (log0 : Log) (ipmi : Ipmi) (config : ConfigParser)
    (s : SectionProxy) (v : string) :
  config !! "GPU zone" = Some s ->
  s !! "gpu_device_ids" = Some v ->
  Py.strip v = "" ->
  __init__ log0 ipmi config = inl ValueError.
Proof.
  intros Hs Hv Hblank. apply (init_inl _ _ _ s Hs).
  unfold normalized_ids, Config.get. change CV_GPU_ZONE_GPU_IDS with "gpu_device_ids".
  rewrite Hv. simpl default. rewrite Hblank. done.
Qed.

(** X18: ids in [0,100] written in decimal and joined by one comma, or by one
    space, are read back as they were written: the tokens are the decimal
    writings and the object, when the constructor returns it, has these ids
    in this order. *)
Theorem init_reads_back_written_ids (log0 : Log) (ipmi : Ipmi)
    (config : ConfigParser) (s : SectionProxy) (c : ascii) (zs : list Z) :
  config !! "GPU zone" = Some s ->
  c = ","%char \/ c = " "%char ->
  zs <> [] -> Forall (fun z => 0 <= z <= 100) zs ->
  s !! "gpu_device_ids" = Some (String.concat (String c "") (pretty <$> zs)) ->
  Forall2 (fun t gid => Py.int t = Some gid /\ 0 <= gid <= 100)
    (tokens (normalized_ids s)) zs /\
  forall self msgs,
    __init__ log0 ipmi config = inr (self, msgs) -> gpu_device_ids self = zs.
Proof.
  intros Hs Hc Hne Hzs Hv.
  assert (words (pretty <$> zs)) as Hwords.
  { unfold words. rewrite Forall_fmap. eapply Forall_impl; [exact Hzs|].
    intros z Hz. simpl. destruct (pretty_id z Hz) as (? & ? & _). done. }
  assert (pretty <$> zs <> []) as Hne' by by destruct zs.
  destruct (JoinFacts.tokens_joined c Hc _ Hwords Hne') as [Hnorm Htok].
  assert (tokens (normalized_ids s) = pretty <$> zs) as Htokens.
  { unfold normalized_ids, Config.get.
    change CV_GPU_ZONE_GPU_IDS with "gpu_device_ids".
    rewrite Hv. simpl default. unfold joined in *. by rewrite Hnorm. }
  assert (Forall2 (fun t gid => Py.int t = Some gid /\ 0 <= gid <= 100)
            (tokens (normalized_ids s)) zs) as Hall.
  { rewrite Htokens. apply Forall2_fmap_l, Forall_Forall2_diag.
    eapply Forall_impl; [exact Hzs|]. intros z Hz. simpl.
    destruct (pretty_id z Hz) as (_ & _ & ?). done. }
  split; [done|].
  intros self msgs (s' & Hs' & Hids & _)%init_inr.
  assert (s' = s) as -> by (change CS_GPU_ZONE with "GPU zone" in Hs'; congruence).
  destruct (ids_accepted s zs Hall) as [Hids' _]. congruence.
Qed.

End InitProperties.

(** ** Further concrete runs *)

Import Sample.

Ltac run_facts :=
  first [ split; reflexivity
        | vm_compute; split; [discriminate | reflexivity]
        | reflexivity
        | vm_compute; reflexivity
        | discriminate ].

Lemma read_keeps_shape_witness :
  consistent (after (_get_nth_temp (three_sensors 100) 0 (fresh [0]))).
Proof.
  pose proof (read_keeps_shape (fresh [0]) (three_sensors 100) 0) as Hw.
  cbv zeta in Hw. destruct Hw as (_ & _ & _ & _ & Hw). apply Hw.
  split; reflexivity.
Defined.

Lemma read_touches_one_entry_witness :
  let self' := after (_get_nth_temp (three_sensors 200) 0 polled) in
  temp_retrieved self' !! 1%nat = temp_retrieved polled !! 1%nat /\
  gpu_temperature self' !! 1%nat = gpu_temperature polled !! 1%nat.
Proof.
  apply (read_touches_one_entry polled (three_sensors 200) 0 1).
  - split; reflexivity.
  - vm_compute. discriminate.
Defined.

Lemma subprocess_failure_propagates_witness :
  _get_nth_temp (grep_missing 100) 0 (fresh [0]) =
  {| result := inl FileNotFoundError; after := fresh [0];
     trace := [Glob (hwmon_pattern 0); Run ["grep"; "."; card0 "1"]] |}.
Proof.
  apply (subprocess_failure_propagates (fresh [0]) (grep_missing 100) 0
           0%float 0 [card0 "1"] FileNotFoundError); run_facts.
Defined.

Lemma empty_output_raises_witness :
  _get_nth_temp (silent_sensors 100) 0 (fresh [0]) =
  {| result := inl ValueError;
     after := {| base := (2%float, 0); gpu_device_ids := [0];
                 gpu_temperature := [0%float];
                 temp_retrieved := [100%float] |};
     trace := [Glob (hwmon_pattern 0); Run ["grep"; "."; card0 "1"; card0 "2"];
               Print 0 []] |}.
Proof.
  apply (empty_output_raises (fresh [0]) (silent_sensors 100) 0 0%float 0
           [card0 "1"; card0 "2"]
           {| returncode := 0; stdout := ""; stderr := "" |}); run_facts.
Defined.

Lemma stale_value_after_parse_failure_witness :
  let o1 := _get_nth_temp (unreadable_sensor 100) 0 (fresh [0]) in
  (exists e, result o1 = inl e) /\
  _get_nth_temp (three_sensors 101) 0 (after o1) =
  {| result := inr 0%float; after := after o1; trace := [] |}.
Proof.
  apply (stale_value_after_parse_failure (fresh [0]) (unreadable_sensor 100)
           (three_sensors 101) 0 0%float 0%float 0 [card0 "1"; card0 "2"]
           {| returncode := 0;
              stdout := card0 "1" +:+ ":45000" +:+ nl +:+ card0 "2" +:+ ":n/a" +:+ nl;
              stderr := "" |}
           (card0 "2" +:+ ":n/a") ValueError); try run_facts.
  vm_compute. right. left.
Defined.

Lemma returned_value_cached_or_fresh_witness :
  (trace (_get_nth_temp (three_sensors 1) 0 (fresh [0])) = [] /\
   after (_get_nth_temp (three_sensors 1) 0 (fresh [0])) = fresh [0] /\
   Py.getitem (gpu_temperature (fresh [0])) 0 = Some 0%float) \/
  (exists gid r temps,
     Py.getitem (gpu_device_ids (fresh [0])) 0 = Some gid /\
     glob (three_sensors 1) (hwmon_pattern gid) <> [] /\
     run (three_sensors 1) ("grep" :: "." :: glob (three_sensors 1) (hwmon_pattern gid))
     = inr r /\
     comprehension scaled_field (Py.splitlines (stdout r)) = inr temps /\
     Py.max temps = Some 0%float /\ 0%float ∈ temps /\
     trace (_get_nth_temp (three_sensors 1) 0 (fresh [0])) =
     [Glob (hwmon_pattern gid);
      Run ("grep" :: "." :: glob (three_sensors 1) (hwmon_pattern gid));
      Print gid temps]).
Proof.
  apply (returned_value_cached_or_fresh (fresh [0]) (three_sensors 1) 0 0%float).
  vm_compute. reflexivity.
Defined.

Lemma read_exceptions_witness :
  IndexError = IndexError \/ IndexError = FileNotFoundError \/
  IndexError = ValueError \/ exists args, run (one_sensor 100) args = inl IndexError.
Proof.
  apply (read_exceptions (fresh [0]) (one_sensor 100) 0 IndexError).
  vm_compute. reflexivity.
Defined.

Lemma reads_of_other_index_independent_witness :
  let self' := after (_get_nth_temp (three_sensors 200) 1 polled) in
  result (_get_nth_temp (three_sensors 101) 0 self')
  = result (_get_nth_temp (three_sensors 101) 0 polled) /\
  trace (_get_nth_temp (three_sensors 101) 0 self')
  = trace (_get_nth_temp (three_sensors 101) 0 polled).
Proof.
  apply (reads_of_other_index_independent polled (three_sensors 200)
           (three_sensors 101) 0 1).
  - split; reflexivity.
  - vm_compute. split; [discriminate | reflexivity].
  - vm_compute. split; [discriminate | reflexivity].
  - discriminate.
Defined.

Lemma reacquires_after_interval_witness :
  exists gid rest,
    gpu_device_ids (fresh [0]) !! Z.to_nat 0 = Some gid /\
    trace (_get_nth_temp (three_sensors 102) 0
             (after (_get_nth_temp (three_sensors 100) 0 (fresh [0]))))
    = Glob (hwmon_pattern gid) :: rest.
Proof.
  apply (reacquires_after_interval (fresh [0]) (three_sensors 100)
           (three_sensors 102) 0 52%float).
  - split; reflexivity.
  - vm_compute. split; [discriminate | reflexivity].
  - vm_compute. reflexivity.
  - vm_compute. discriminate.
  - vm_compute. reflexivity.
Defined.

Lemma hwmon_pattern_inj_witness : (7 : Z) = 7.
Proof. apply (hwmon_pattern_inj 7 7). reflexivity. Defined.

Lemma init_missing_section_witness :
  __init__ (H := package) 0 tt ∅ = inl KeyError.
Proof. apply (init_missing_section (H := package) 0 tt ∅). reflexivity. Defined.


Lemma init_rejects_bad_option_witness :
  __init__ (H := package) 0 tt
    {[ "GPU zone" := {[ "gpu_device_ids" := "0"; "steps" := "five" ]} ]}
  = inl ValueError.
Proof.
  apply (init_rejects_bad_option (H := package) 0 tt _
           {[ "gpu_device_ids" := "0"; "steps" := "five" ]} "steps" "five").
  - vm_compute. reflexivity.
  - vm_compute. reflexivity.
  - left. split; [right; left | vm_compute; reflexivity].
Defined.



Lemma init_rejects_blank_ids_witness :
  __init__ (H := package) 0 tt (config_ids "   ") = inl ValueError.
Proof.
  apply (init_rejects_blank_ids (H := package) 0 tt _
           {[ "gpu_device_ids" := "   " ]} "   "); vm_compute; reflexivity.
Defined.

Lemma init_reads_back_written_ids_witness :
  Forall2 (fun t gid => Py.int t = Some gid /\ 0 <= gid <= 100)
    (tokens (normalized_ids {[ "gpu_device_ids" := "3 7 100" ]})) [3; 7; 100] /\
  forall self msgs,
    __init__ (H := package) 0 tt (config_ids "3 7 100") = inr (self, msgs) ->
    gpu_device_ids self = [3; 7; 100].
Proof.
  apply (init_reads_back_written_ids (H := package) 0 tt (config_ids "3 7 100")
           {[ "gpu_device_ids" := "3 7 100" ]} " "%char [3; 7; 100]).
  - vm_compute. reflexivity.
  - by right.
  - discriminate.
  - repeat constructor; lia.
  - vm_compute. reflexivity.
Defined.

